(** * Teacher Ranker backend: the professors service

    A shallow embedding of [src/professors/professors.service.ts]
    ([findAll], [findOne] and the two response mappers), of the validation
    decorators of [src/professors/dto/search-professor.dto.ts], and of the
    part of the Prisma client the service calls ([professor.count],
    [professor.findMany], [professor.findUnique]).

    Conventions.
    - A JavaScript integer is a [Z] that a double holds; subtraction and
      multiplication round their exact result to the nearest double, as
      JavaScript does, so they are exact up to 2^53 and not beyond.
    - A rating is a [Q]: every finite double is a rational and [>=], [<=]
      on finite doubles are the rational comparisons.
    - A property that may be [undefined] is an [option].
    - A promise that may reject is a [result]; [await] is [bind]. *)

From Stdlib Require Import ZArith QArith Qround List Bool String Ascii Lia.
From Stdlib Require Import Permutation Sorted Btauto.
Import ListNotations.

Local Open Scope string_scope.
Local Open Scope Z_scope.

(* ================================================================== *)
(** ** Exceptions and the error monad *)

Inductive Exception : Type :=
| NotFoundException (parsedId : Z)
    (* `Profesor con ID ${parsedId} no encontrado` *)
| TypeError
    (* reading [.map] of [undefined] *)
| PrismaClientValidationError.
    (* the store refuses the query arguments *)

Inductive result (A : Type) : Type :=
| Ok (a : A)
| Err (e : Exception).
Arguments Ok {A} a.
Arguments Err {A} e.

Definition bind {A B : Type} (m : result A) (k : A -> result B) : result B :=
  match m with
  | Ok a => k a
  | Err e => Err e
  end.

Notation "'await' x <- m ;; k" := (bind m (fun x => k))
  (at level 61, x name, m at next level, right associativity).

(* ================================================================== *)
(** ** JavaScript truthiness of the values the service tests *)

(** [n ? a : b] on a number: [0] is falsy. *)
Definition truthy_number (n : Z) : bool := negb (n =? 0).

(** [s ? a : b] on a string: the empty string is falsy. *)
Definition truthy_string (s : string) : bool :=
  match s with
  | EmptyString => false
  | String _ _ => true
  end.

(* ================================================================== *)
(** ** JavaScript arithmetic on integers *)

Definition MAX_SAFE_INTEGER : Z := 2 ^ 53 - 1.

(** The double nearest to the integer [n], ties to the even significand:
    [n] itself up to 2^53 in absolute value, and beyond that the nearest
    multiple of the spacing of the doubles around [n].  (Overflow to
    Infinity, beyond 2^1024, is left out.) *)
Definition js_round (n : Z) : Z :=
  let a := Z.abs n in
  if a <=? 2 ^ 53 then n
  else
    let k := Z.log2 a - 52 in
    let q := Z.shiftr a k in
    let r := a - Z.shiftl q k in
    let half := Z.shiftl 1 (k - 1) in
    let q' :=
      if r <? half then q
      else if half <? r then q + 1
      else if Z.even q then q else q + 1 in
    Z.sgn n * Z.shiftl q' k.

(** [a - b] and [a * b] on numbers. *)
Definition js_sub (a b : Z) : Z := js_round (a - b).

Definition js_mul (a b : Z) : Z := js_round (a * b).

(* ================================================================== *)
(** ** Strings: case-insensitive [contains] *)

Definition lower_ascii (c : ascii) : ascii :=
  let n := nat_of_ascii c in
  if (Nat.leb 65 n && Nat.leb n 90)%bool then ascii_of_nat (n + 32) else c.

Fixpoint lower (s : string) : string :=
  match s with
  | EmptyString => EmptyString
  | String c t => String (lower_ascii c) (lower t)
  end.

(** [needle] occurs in [hay] at some position. *)
Fixpoint contains_string (needle hay : string) : bool :=
  (String.prefix needle hay ||
   match hay with
   | EmptyString => false
   | String _ t => contains_string needle t
   end)%bool.

Inductive QueryMode : Type := mode_default | mode_insensitive.

(* ================================================================== *)
(** ** Ordering: a stable insertion sort by a comparator *)

Section Sorting.
Context {A : Type} (leb : A -> A -> bool).

Fixpoint insert_by (x : A) (l : list A) : list A :=
  match l with
  | [] => [x]
  | y :: t => if leb x y then x :: l else y :: insert_by x t
  end.

Definition sort_by (l : list A) : list A := fold_right insert_by [] l.
End Sorting.

Inductive SortOrder : Type := asc | desc.

(* ================================================================== *)
(** ** Entities of the store *)

Record University : Type := mkUniversity {
  u_id : Z;
  u_name : string;
  u_acronym : string;
  u_department : option string
}.

Record Faculty : Type := mkFaculty { f_id : Z; f_name : string }.

Record Course : Type := mkCourse { c_id : Z; c_name : string }.

Record Tag : Type := mkTag { t_id : Z; t_name : string; t_type : string }.

(** A row of the Professor-University join table with its university
    loaded ([include: { university: true }]). *)
Record UniversityRelation : Type := mkUniversityRelation {
  ur_universityId : Z;
  ur_university : University
}.

Record FacultyRelation : Type := mkFacultyRelation {
  fr_facultyId : Z;
  fr_faculty : Faculty
}.

Record CourseRelation : Type := mkCourseRelation { cr_course : Course }.

Record TagRelation : Type := mkTagRelation { tr_tag : Tag }.

Record ReviewWithCourse : Type := mkReview {
  r_id : Z;
  r_overallRating : Z;
  r_teachingQuality : Z;
  r_difficultyLevel : Z;
  r_mandatoryAttendance : bool;
  r_classInterest : Z;
  r_detailedComment : option string;
  r_gradeObtained : option string;
  r_createdAt : Z;
  r_visibilityStatus : string;
  r_course : Course
}.

(** A professor as the store holds it, with every relation. *)
Record ProfessorRow : Type := mkProfessorRow {
  row_id : Z;
  row_fullName : string;
  row_averageRating : Q;
  row_reviewCount : Z;
  row_universities : list UniversityRelation;
  row_faculties : list FacultyRelation;
  row_courses : list CourseRelation;
  row_tags : list TagRelation;
  row_reviews : list ReviewWithCourse
}.

(** A professor as a query returns it: a relation that the query did not
    include is [undefined]. *)
Record ProfessorWithRelations : Type := mkProfessor {
  p_id : Z;
  p_fullName : string;
  p_averageRating : Q;
  p_reviewCount : Z;
  p_universities : option (list UniversityRelation);
  p_faculties : option (list FacultyRelation);
  p_courses : option (list CourseRelation);
  p_tags : option (list TagRelation);
  p_reviews : option (list ReviewWithCourse)
}.

(* ================================================================== *)
(** ** Prisma query arguments *)

Record StringFilter : Type := mkStringFilter {
  sf_contains : string;
  sf_mode : QueryMode
}.

Record FloatFilter : Type := mkFloatFilter {
  ff_gte : option Q;
  ff_lte : option Q
}.

Record IntFilter : Type := mkIntFilter { if_gte : option Z }.

Record UniversityWhereInput : Type := mkUniversityWhere {
  uw_department : option StringFilter
}.

Record ProfessorUniversityWhereInput : Type := mkProfessorUniversityWhere {
  puw_universityId : option Z;
  puw_university : option UniversityWhereInput
}.

Record ProfessorUniversityListRelationFilter : Type := mkUniversitySome {
  pu_some : ProfessorUniversityWhereInput
}.

Record ProfessorFacultyWhereInput : Type := mkProfessorFacultyWhere {
  pfw_facultyId : option Z
}.

Record ProfessorFacultyListRelationFilter : Type := mkFacultySome {
  pf_some : ProfessorFacultyWhereInput
}.

Record ProfessorWhereInput : Type := mkWhere {
  w_fullName : option StringFilter;
  w_averageRating : option FloatFilter;
  w_reviewCount : option IntFilter;
  w_universities : option ProfessorUniversityListRelationFilter;
  w_faculties : option ProfessorFacultyListRelationFilter
}.

(** [include.reviews]: the sub-filter and sub-ordering of the relation. *)
Record ReviewsInclude : Type := mkReviewsInclude {
  ri_where_visibilityStatus : option string;
  ri_orderBy_createdAt : option SortOrder
}.

Record ProfessorInclude : Type := mkInclude {
  inc_universities : bool;
  inc_faculties : bool;
  inc_courses : bool;
  inc_tags : bool;
  inc_reviews : option ReviewsInclude
}.

Record ProfessorOrderBy : Type := mkOrderBy { ob_averageRating : SortOrder }.

Record FindManyArgs : Type := mkFindMany {
  fm_where : ProfessorWhereInput;
  fm_skip : Z;
  fm_take : Z;
  fm_include : ProfessorInclude;
  fm_orderBy : ProfessorOrderBy
}.

Record FindUniqueArgs : Type := mkFindUnique {
  fu_where_id : Z;
  fu_include : ProfessorInclude
}.

(** The injected [PrismaService], as far as the service uses it.  A store
    or transport failure is an [Err] that the service lets through. *)
Record PrismaService : Type := mkPrisma {
  professor_count : ProfessorWhereInput -> result Z;
  professor_findMany : FindManyArgs -> result (list ProfessorWithRelations);
  professor_findUnique : FindUniqueArgs -> result (option ProfessorWithRelations)
}.

(* ================================================================== *)
(** ** The store: Prisma's reading of the query arguments over a snapshot

    The persistence engine is an external collaborator of the service.
    Its reading of a query over a point-in-time snapshot [db] of the
    professor table is modelled twice: with a literal reading of
    [contains] and one fixed order of ties ([matches_where],
    [order_professors] and [memoryPrisma] below), and, further down, for
    every reading of [contains] and every order of ties a store may have
    ([StoreSemantics], [snapshotPrisma]).  The literal reading of
    [contains] is a substring test with ASCII case folding; a real store
    also reads [%] and [_] as wildcards and folds other letters. *)

Definition matches_string (f : StringFilter) (v : option string) : bool :=
  match v with
  | None => false (* a NULL column matches no [contains] *)
  | Some s =>
      match sf_mode f with
      | mode_insensitive => contains_string (lower (sf_contains f)) (lower s)
      | mode_default => contains_string (sf_contains f) s
      end
  end.

Definition matches_float (f : FloatFilter) (q : Q) : bool :=
  (match ff_gte f with None => true | Some lo => Qle_bool lo q end &&
   match ff_lte f with None => true | Some hi => Qle_bool q hi end)%bool.

Definition matches_int (f : IntFilter) (n : Z) : bool :=
  match if_gte f with None => true | Some lo => lo <=? n end.

Definition matches_university (w : UniversityWhereInput) (u : University) : bool :=
  match uw_department w with
  | None => true
  | Some f => matches_string f (u_department u)
  end.

(** One joined Professor-University row against the conditions of [some]. *)
Definition matches_university_relation
    (w : ProfessorUniversityWhereInput) (r : UniversityRelation) : bool :=
  (match puw_universityId w with None => true | Some i => ur_universityId r =? i end &&
   match puw_university w with
   | None => true
   | Some uw => matches_university uw (ur_university r)
   end)%bool.

Definition matches_faculty_relation
    (w : ProfessorFacultyWhereInput) (r : FacultyRelation) : bool :=
  match pfw_facultyId w with None => true | Some i => fr_facultyId r =? i end.

(** The conjunction of the fields that are set; an unset field imposes
    nothing. *)
Definition matches_where (w : ProfessorWhereInput) (row : ProfessorRow) : bool :=
  (match w_fullName w with
   | None => true
   | Some f => matches_string f (Some (row_fullName row))
   end &&
   match w_averageRating w with
   | None => true
   | Some f => matches_float f (row_averageRating row)
   end &&
   match w_reviewCount w with
   | None => true
   | Some f => matches_int f (row_reviewCount row)
   end &&
   match w_universities w with
   | None => true
   | Some f => existsb (matches_university_relation (pu_some f)) (row_universities row)
   end &&
   match w_faculties w with
   | None => true
   | Some f => existsb (matches_faculty_relation (pf_some f)) (row_faculties row)
   end)%bool.

Definition rating_leb (o : SortOrder) (x y : ProfessorRow) : bool :=
  match o with
  | asc => Qle_bool (row_averageRating x) (row_averageRating y)
  | desc => Qle_bool (row_averageRating y) (row_averageRating x)
  end.

Definition order_professors (ob : ProfessorOrderBy) (rows : list ProfessorRow)
    : list ProfessorRow :=
  sort_by (rating_leb (ob_averageRating ob)) rows.

Definition createdAt_leb (o : SortOrder) (x y : ReviewWithCourse) : bool :=
  match o with
  | asc => r_createdAt x <=? r_createdAt y
  | desc => r_createdAt y <=? r_createdAt x
  end.

(** [skip]/[take]: a non-negative [take] reads forward from the offset, a
    negative one reads backward from the end of the ordered list. *)
Definition window {A : Type} (skip take : Z) (l : list A) : list A :=
  if 0 <=? take
  then firstn (Z.to_nat take) (skipn (Z.to_nat skip) l)
  else rev (firstn (Z.to_nat (- take)) (skipn (Z.to_nat skip) (rev l))).

Definition load_reviews (ri : ReviewsInclude) (rs : list ReviewWithCourse)
    : list ReviewWithCourse :=
  let kept :=
    match ri_where_visibilityStatus ri with
    | None => rs
    | Some v => filter (fun r => String.eqb (r_visibilityStatus r) v) rs
    end in
  match ri_orderBy_createdAt ri with
  | None => kept
  | Some o => sort_by (createdAt_leb o) kept
  end.

(** Eager loading: an included relation is an array, possibly empty; a
    relation that is not included is absent from the returned object. *)
Definition load (inc : ProfessorInclude) (row : ProfessorRow)
    : ProfessorWithRelations :=
  {| p_id := row_id row;
     p_fullName := row_fullName row;
     p_averageRating := row_averageRating row;
     p_reviewCount := row_reviewCount row;
     p_universities :=
       if inc_universities inc then Some (row_universities row) else None;
     p_faculties :=
       if inc_faculties inc then Some (row_faculties row) else None;
     p_courses := if inc_courses inc then Some (row_courses row) else None;
     p_tags := if inc_tags inc then Some (row_tags row) else None;
     p_reviews :=
       match inc_reviews inc with
       | None => None
       | Some ri => Some (load_reviews ri (row_reviews row))
       end |}.

(** *** Integer columns *)

(** The integer columns of the store are 32 bits wide; the store refuses
    a query that compares one with a value outside that range. *)
Definition isInt32 (n : Z) : bool :=
  ((-2147483648 <=? n) && (n <=? 2147483647))%bool.

Definition isInt32_opt (v : option Z) : bool :=
  match v with Some n => isInt32 n | None => true end.

Definition where_in_range (w : ProfessorWhereInput) : bool :=
  (match w_reviewCount w with
   | Some f => isInt32_opt (if_gte f)
   | None => true
   end &&
   match w_universities w with
   | Some f => isInt32_opt (puw_universityId (pu_some f))
   | None => true
   end &&
   match w_faculties w with
   | Some f => isInt32_opt (pfw_facultyId (pf_some f))
   | None => true
   end)%bool.

(** *** What the service leaves to the store *)

(** Which [where] objects the store accepts besides the range of their
    integers (a text it cannot encode is refused), how it reads
    [contains] in a mode (pattern first, then the text), in which order
    it returns the professors of one query, and in which order it returns
    the reviews of one professor. *)
Record StoreSemantics : Type := mkSemantics {
  sem_accepts : ProfessorWhereInput -> bool;
  sem_contains : QueryMode -> string -> string -> bool;
  sem_order : FindManyArgs -> list ProfessorRow -> list ProfessorRow;
  sem_order_reviews :
    SortOrder -> list ReviewWithCourse -> list ReviewWithCourse
}.

(** What every store keeps: an ordering returns the rows it was given,
    sorted by the key of the query; rows with equal keys come in any
    order, which may differ from one query to the next. *)
Record StoreLaws (sem : StoreSemantics) : Prop := mkLaws {
  order_permutation :
    forall args rows, Permutation (sem_order sem args rows) rows;
  order_sorted :
    forall args rows,
      StronglySorted
        (fun x y => rating_leb (ob_averageRating (fm_orderBy args)) x y = true)
        (sem_order sem args rows);
  reviews_permutation :
    forall o rs, Permutation (sem_order_reviews sem o rs) rs;
  reviews_sorted :
    forall o rs,
      StronglySorted (fun x y => createdAt_leb o x y = true)
        (sem_order_reviews sem o rs)
}.

Definition store_accepts (sem : StoreSemantics) (w : ProfessorWhereInput)
    : bool :=
  (where_in_range w && sem_accepts sem w)%bool.

Definition matches_string_sem (sem : StoreSemantics)
    (f : StringFilter) (v : option string) : bool :=
  match v with
  | None => false (* a NULL column matches no [contains] *)
  | Some s => sem_contains sem (sf_mode f) (sf_contains f) s
  end.

Definition matches_university_sem (sem : StoreSemantics)
    (w : UniversityWhereInput) (u : University) : bool :=
  match uw_department w with
  | None => true
  | Some f => matches_string_sem sem f (u_department u)
  end.

Definition matches_university_relation_sem (sem : StoreSemantics)
    (w : ProfessorUniversityWhereInput) (r : UniversityRelation) : bool :=
  (match puw_universityId w with None => true | Some i => ur_universityId r =? i end &&
   match puw_university w with
   | None => true
   | Some uw => matches_university_sem sem uw (ur_university r)
   end)%bool.

Definition matches_where_sem (sem : StoreSemantics)
    (w : ProfessorWhereInput) (row : ProfessorRow) : bool :=
  (match w_fullName w with
   | None => true
   | Some f => matches_string_sem sem f (Some (row_fullName row))
   end &&
   match w_averageRating w with
   | None => true
   | Some f => matches_float f (row_averageRating row)
   end &&
   match w_reviewCount w with
   | None => true
   | Some f => matches_int f (row_reviewCount row)
   end &&
   match w_universities w with
   | None => true
   | Some f =>
       existsb (matches_university_relation_sem sem (pu_some f))
         (row_universities row)
   end &&
   match w_faculties w with
   | None => true
   | Some f => existsb (matches_faculty_relation (pf_some f)) (row_faculties row)
   end)%bool.

Definition load_reviews_sem (sem : StoreSemantics)
    (ri : ReviewsInclude) (rs : list ReviewWithCourse)
    : list ReviewWithCourse :=
  let kept :=
    match ri_where_visibilityStatus ri with
    | None => rs
    | Some v => filter (fun r => String.eqb (r_visibilityStatus r) v) rs
    end in
  match ri_orderBy_createdAt ri with
  | None => kept
  | Some o => sem_order_reviews sem o kept
  end.

Definition load_sem (sem : StoreSemantics)
    (inc : ProfessorInclude) (row : ProfessorRow) : ProfessorWithRelations :=
  {| p_id := row_id row;
     p_fullName := row_fullName row;
     p_averageRating := row_averageRating row;
     p_reviewCount := row_reviewCount row;
     p_universities :=
       if inc_universities inc then Some (row_universities row) else None;
     p_faculties :=
       if inc_faculties inc then Some (row_faculties row) else None;
     p_courses := if inc_courses inc then Some (row_courses row) else None;
     p_tags := if inc_tags inc then Some (row_tags row) else None;
     p_reviews :=
       match inc_reviews inc with
       | None => None
       | Some ri => Some (load_reviews_sem sem ri (row_reviews row))
       end |}.

(** *** The three queries *)

(** [count]: refused when the store does not accept the [where] object;
    the number of matching rows otherwise. *)
Definition snapshot_count (sem : StoreSemantics) (db : list ProfessorRow)
    (w : ProfessorWhereInput) : result Z :=
  if store_accepts sem w
  then Ok (Z.of_nat (List.length (filter (matches_where_sem sem w) db)))
  else Err PrismaClientValidationError.

(** [findMany]: refused on a negative [skip] or a [where] object the
    store does not accept; the window of the ordered matching rows
    otherwise. *)
Definition snapshot_findMany (sem : StoreSemantics) (db : list ProfessorRow)
    (args : FindManyArgs) : result (list ProfessorWithRelations) :=
  if ((fm_skip args <? 0) || negb (store_accepts sem (fm_where args)))%bool
  then Err PrismaClientValidationError
  else
    Ok (map (load_sem sem (fm_include args))
          (window (fm_skip args) (fm_take args)
             (sem_order sem args
                (filter (matches_where_sem sem (fm_where args)) db)))).

(** [findUnique]: refused on an id out of range; the row with the id, or
    [null], otherwise. *)
Definition snapshot_findUnique (sem : StoreSemantics) (db : list ProfessorRow)
    (args : FindUniqueArgs) : result (option ProfessorWithRelations) :=
  if isInt32 (fu_where_id args)
  then
    Ok (option_map (load_sem sem (fu_include args))
          (find (fun row => row_id row =? fu_where_id args) db))
  else Err PrismaClientValidationError.

Definition snapshotPrisma (sem : StoreSemantics) (db : list ProfessorRow)
    : PrismaService :=
  {| professor_count := snapshot_count sem db;
     professor_findMany := snapshot_findMany sem db;
     professor_findUnique := snapshot_findUnique sem db |}.

(** The literal reading of [contains], the stable order of ties, and no
    refusal but that of integers out of range. *)
Definition literalSemantics : StoreSemantics :=
  {| sem_accepts := fun _ => true;
     sem_contains :=
       fun m needle hay =>
         match m with
         | mode_insensitive => contains_string (lower needle) (lower hay)
         | mode_default => contains_string needle hay
         end;
     sem_order := fun args => order_professors (fm_orderBy args);
     sem_order_reviews := fun o => sort_by (createdAt_leb o) |}.

Definition memoryPrisma (db : list ProfessorRow) : PrismaService :=
  snapshotPrisma literalSemantics db.

(* ================================================================== *)
(** ** search-professor.dto.ts *)

Record SearchProfessorDto : Type := mkSearch {
  name : option string;
  universityId : option Z;
  facultyId : option Z;
  department : option string;
  minRating : option Q;
  maxRating : option Q;
  minReviews : option Z;
  page : option Z;
  limit : option Z
}.

(** [@IsOptional()] skips the other decorators of an absent property. *)
Definition optional {A : Type} (check : A -> bool) (v : option A) : bool :=
  match v with
  | None => true
  | Some a => check a
  end.

(** [@Min(0) @Max(5)] *)
Definition isRating (q : Q) : bool := (Qle_bool 0 q && Qle_bool q 5)%bool.

(** The numeric bounds the decorators of the class put on a request. *)
Definition validate (dto : SearchProfessorDto) : bool :=
  (optional isRating (minRating dto) &&
   optional isRating (maxRating dto) &&
   optional (fun n => 0 <=? n) (minReviews dto) &&
   optional (fun n => 1 <=? n) (page dto) &&
   optional (fun n => (1 <=? n) && (n <=? 100)) (limit dto))%bool.

(* ================================================================== *)
(** ** professor-response.dto.ts, as the mappers build it *)

Record UniversityDto : Type := mkUniversityDto {
  ud_id : Z;
  ud_name : string;
  ud_acronym : string
}.

Record FacultyDto : Type := mkFacultyDto { fd_id : Z; fd_name : string }.

Record CourseDto : Type := mkCourseDto { cd_id : Z; cd_name : string }.

Record TagDto : Type := mkTagDto { td_id : Z; td_name : string; td_type : string }.

Record ReviewDto : Type := mkReviewDto {
  rd_id : Z;
  rd_overallRating : Z;
  rd_teachingQuality : Z;
  rd_difficultyLevel : Z;
  rd_mandatoryAttendance : bool;
  rd_classInterest : Z;
  rd_detailedComment : option string;
  rd_gradeObtained : option string;
  rd_createdAt : Z;
  rd_course : CourseDto
}.

Record ProfessorResponseDto : Type := mkProfessorResponse {
  pr_id : Z;
  pr_fullName : string;
  pr_averageRating : Q;
  pr_reviewCount : Z;
  pr_universities : list UniversityDto;
  pr_faculties : list FacultyDto
}.

Record ProfessorDetailResponseDto : Type := mkProfessorDetail {
  pd_id : Z;
  pd_fullName : string;
  pd_averageRating : Q;
  pd_reviewCount : Z;
  pd_universities : list UniversityDto;
  pd_faculties : list FacultyDto;
  pd_courses : list CourseDto;
  pd_tags : list TagDto;
  pd_reviews : list ReviewDto
}.

(** [Math.ceil(total / parsedLimit)] is a JavaScript number: dividing by
    zero gives an infinity, or NaN for 0/0. *)
Inductive JsNumber : Type :=
| JsInt (n : Z)
| JsInfinity
| JsNegInfinity
| JsNaN.

Record PaginationMeta : Type := mkMeta {
  total : Z;
  meta_page : Z;
  lastPage : JsNumber;
  meta_limit : Z
}.

Record PaginatedProfessorsResponseDto : Type := mkPaginated {
  data : list ProfessorResponseDto;
  meta : PaginationMeta
}.

(* ================================================================== *)
(** ** professors.service.ts *)

Definition emptyWhere : ProfessorWhereInput :=
  {| w_fullName := None; w_averageRating := None; w_reviewCount := None;
     w_universities := None; w_faculties := None |}.

(** Assignments to the properties of [where]. *)
Definition set_fullName (w : ProfessorWhereInput) (f : StringFilter) :=
  {| w_fullName := Some f; w_averageRating := w_averageRating w;
     w_reviewCount := w_reviewCount w; w_universities := w_universities w;
     w_faculties := w_faculties w |}.

Definition set_averageRating (w : ProfessorWhereInput) (f : FloatFilter) :=
  {| w_fullName := w_fullName w; w_averageRating := Some f;
     w_reviewCount := w_reviewCount w; w_universities := w_universities w;
     w_faculties := w_faculties w |}.

Definition set_reviewCount (w : ProfessorWhereInput) (f : IntFilter) :=
  {| w_fullName := w_fullName w; w_averageRating := w_averageRating w;
     w_reviewCount := Some f; w_universities := w_universities w;
     w_faculties := w_faculties w |}.

Definition set_universities (w : ProfessorWhereInput)
    (f : ProfessorUniversityListRelationFilter) :=
  {| w_fullName := w_fullName w; w_averageRating := w_averageRating w;
     w_reviewCount := w_reviewCount w; w_universities := Some f;
     w_faculties := w_faculties w |}.

Definition set_faculties (w : ProfessorWhereInput)
    (f : ProfessorFacultyListRelationFilter) :=
  {| w_fullName := w_fullName w; w_averageRating := w_averageRating w;
     w_reviewCount := w_reviewCount w; w_universities := w_universities w;
     w_faculties := Some f |}.

(** [x ? Number(x) : undefined] and [x ? {...} : undefined] on a number
    that may be [undefined]: [undefined] and [0] are falsy. *)
Definition if_truthy_number {A : Type} (x : option Z) (f : Z -> A) : option A :=
  match x with
  | Some n => if truthy_number n then Some (f n) else None
  | None => None
  end.

Definition if_truthy_string {A : Type} (x : option string) (f : string -> A)
    : option A :=
  match x with
  | Some s => if truthy_string s then Some (f s) else None
  | None => None
  end.

Definition isSome {A : Type} (x : option A) : bool :=
  match x with Some _ => true | None => false end.

(** [findAll], lines 38-124: the criteria become the [where] object
    (written [where_] below).
    [Number] is the identity on the numbers the validation pipe hands
    over. *)
Definition findAll_where (searchDto : SearchProfessorDto) : ProfessorWhereInput :=
  let parsedUniversityId := if_truthy_number (universityId searchDto) (fun n => n) in
  let parsedFacultyId := if_truthy_number (facultyId searchDto) (fun n => n) in
  let parsedMinRating := minRating searchDto in
  let parsedMaxRating := maxRating searchDto in
  let parsedMinReviews := minReviews searchDto in
  let where_ := emptyWhere in
  let where_ :=
    match if_truthy_string (name searchDto)
            (fun n => {| sf_contains := n; sf_mode := mode_insensitive |}) with
    | Some f => set_fullName where_ f
    | None => where_
    end in
  let where_ :=
    if (isSome parsedMinRating || isSome parsedMaxRating)%bool then
      let averageRating := {| ff_gte := None; ff_lte := None |} in
      let averageRating :=
        match parsedMinRating with
        | Some lo => {| ff_gte := Some lo; ff_lte := ff_lte averageRating |}
        | None => averageRating
        end in
      let averageRating :=
        match parsedMaxRating with
        | Some hi => {| ff_gte := ff_gte averageRating; ff_lte := Some hi |}
        | None => averageRating
        end in
      set_averageRating where_ averageRating
    else where_ in
  let where_ :=
    match parsedMinReviews with
    | Some n => set_reviewCount where_ {| if_gte := Some n |}
    | None => where_
    end in
  let universityFilter :=
    if_truthy_number parsedUniversityId
      (fun n => {| pu_some := {| puw_universityId := Some n;
                                 puw_university := None |} |}) in
  let facultyFilter :=
    if_truthy_number parsedFacultyId
      (fun n => {| pf_some := {| pfw_facultyId := Some n |} |}) in
  let departmentFilter :=
    if_truthy_string (department searchDto)
      (fun d => {| pu_some :=
                     {| puw_universityId := None;
                        puw_university :=
                          Some {| uw_department :=
                                    Some {| sf_contains := d;
                                            sf_mode := mode_insensitive |} |} |} |}) in
  let where_ :=
    match universityFilter with
    | Some f => set_universities where_ f
    | None => where_
    end in
  let where_ :=
    match facultyFilter with
    | Some f => set_faculties where_ f
    | None => where_
    end in
  let where_ :=
    match departmentFilter with
    | Some f => set_universities where_ f
    | None => where_
    end in
  where_.

(** [professor.universities.map(...)]: [.map] of an absent array throws. *)
Definition array_map {A B : Type} (f : A -> B) (a : option (list A))
    : result (list B) :=
  match a with
  | Some l => Ok (map f l)
  | None => Err TypeError
  end.

(** [(professor.courses || [])] *)
Definition or_empty {A : Type} (a : option (list A)) : list A :=
  match a with
  | Some l => l
  | None => []
  end.

Definition universityDto (rel : UniversityRelation) : UniversityDto :=
  {| ud_id := u_id (ur_university rel);
     ud_name := u_name (ur_university rel);
     ud_acronym := u_acronym (ur_university rel) |}.

Definition facultyDto (rel : FacultyRelation) : FacultyDto :=
  {| fd_id := f_id (fr_faculty rel); fd_name := f_name (fr_faculty rel) |}.

Definition courseDto (rel : CourseRelation) : CourseDto :=
  {| cd_id := c_id (cr_course rel); cd_name := c_name (cr_course rel) |}.

Definition tagDto (rel : TagRelation) : TagDto :=
  {| td_id := t_id (tr_tag rel); td_name := t_name (tr_tag rel);
     td_type := t_type (tr_tag rel) |}.

Definition reviewDto (review : ReviewWithCourse) : ReviewDto :=
  {| rd_id := r_id review;
     rd_overallRating := r_overallRating review;
     rd_teachingQuality := r_teachingQuality review;
     rd_difficultyLevel := r_difficultyLevel review;
     rd_mandatoryAttendance := r_mandatoryAttendance review;
     rd_classInterest := r_classInterest review;
     rd_detailedComment := r_detailedComment review;
     rd_gradeObtained := r_gradeObtained review;
     rd_createdAt := r_createdAt review;
     rd_course := {| cd_id := c_id (r_course review);
                     cd_name := c_name (r_course review) |} |}.

Definition mapToProfessorResponse (professor : ProfessorWithRelations)
    : result ProfessorResponseDto :=
  await universities <- array_map universityDto (p_universities professor);;
  await faculties <- array_map facultyDto (p_faculties professor);;
  Ok {| pr_id := p_id professor;
        pr_fullName := p_fullName professor;
        pr_averageRating := p_averageRating professor;
        pr_reviewCount := p_reviewCount professor;
        pr_universities := universities;
        pr_faculties := faculties |}.

Definition mapToProfessorDetailResponse (professor : ProfessorWithRelations)
    : result ProfessorDetailResponseDto :=
  await universities <- array_map universityDto (p_universities professor);;
  await faculties <- array_map facultyDto (p_faculties professor);;
  Ok {| pd_id := p_id professor;
        pd_fullName := p_fullName professor;
        pd_averageRating := p_averageRating professor;
        pd_reviewCount := p_reviewCount professor;
        pd_universities := universities;
        pd_faculties := faculties;
        pd_courses := map courseDto (or_empty (p_courses professor));
        pd_tags := map tagDto (or_empty (p_tags professor));
        pd_reviews := map reviewDto (or_empty (p_reviews professor)) |}.

(** [professors.map(f)] where [f] may throw: the first failure wins. *)
Fixpoint map_result {A B : Type} (f : A -> result B) (l : list A)
    : result (list B) :=
  match l with
  | [] => Ok []
  | x :: t =>
      await y <- f x;;
      await ys <- map_result f t;;
      Ok (y :: ys)
  end.

(** [Math.ceil(a / b)] on integers. *)
Definition Math_ceil_div (a b : Z) : JsNumber :=
  if b =? 0 then
    if a =? 0 then JsNaN else if 0 <? a then JsInfinity else JsNegInfinity
  else JsInt (Qceiling (inject_Z a / inject_Z b)).

Definition listInclude : ProfessorInclude :=
  {| inc_universities := true; inc_faculties := true; inc_courses := false;
     inc_tags := false; inc_reviews := None |}.

Definition detailInclude : ProfessorInclude :=
  {| inc_universities := true; inc_faculties := true; inc_courses := true;
     inc_tags := true;
     inc_reviews :=
       Some {| ri_where_visibilityStatus := Some "visible";
               ri_orderBy_createdAt := Some desc |} |}.

Definition findAll (prisma : PrismaService) (searchDto : SearchProfessorDto)
    : result PaginatedProfessorsResponseDto :=
  let page := match page searchDto with Some n => n | None => 1 end in
  let limit := match limit searchDto with Some n => n | None => 20 end in
  let parsedPage := page in
  let parsedLimit := limit in
  let where_ := findAll_where searchDto in
  let skip := js_mul (js_sub parsedPage 1) parsedLimit in
  await total <- professor_count prisma where_;;
  await professors <-
    professor_findMany prisma
      {| fm_where := where_;
         fm_skip := skip;
         fm_take := parsedLimit;
         fm_include := listInclude;
         fm_orderBy := {| ob_averageRating := desc |} |};;
  await data <- map_result mapToProfessorResponse professors;;
  let lastPage := Math_ceil_div total parsedLimit in
  Ok {| data := data;
        meta := {| total := total; meta_page := parsedPage;
                   lastPage := lastPage; meta_limit := parsedLimit |} |}.

Definition findOne (prisma : PrismaService) (id : Z)
    : result ProfessorDetailResponseDto :=
  let parsedId := id in
  await professor <-
    professor_findUnique prisma
      {| fu_where_id := parsedId; fu_include := detailInclude |};;
  match professor with
  | None => Err (NotFoundException parsedId)
  | Some professor => mapToProfessorDetailResponse professor
  end.

(* ================================================================== *)
(** ** Definitions used in the statements *)

(** *** The filters [findAll] builds *)

Definition nameFilter (n : string) : StringFilter :=
  {| sf_contains := n; sf_mode := mode_insensitive |}.

Definition universityIdFilter (n : Z) : ProfessorUniversityListRelationFilter :=
  {| pu_some := {| puw_universityId := Some n; puw_university := None |} |}.

Definition departmentFilter (d : string) : ProfessorUniversityListRelationFilter :=
  {| pu_some :=
       {| puw_universityId := None;
          puw_university := Some {| uw_department := Some (nameFilter d) |} |} |}.

(** *** What the mappers make of stored professors *)

(** The summary of a stored professor: what [mapToProfessorResponse]
    makes of it once its universities and faculties are loaded. *)
Definition summaryOf (row : ProfessorRow) : ProfessorResponseDto :=
  {| pr_id := row_id row;
     pr_fullName := row_fullName row;
     pr_averageRating := row_averageRating row;
     pr_reviewCount := row_reviewCount row;
     pr_universities := map universityDto (row_universities row);
     pr_faculties := map facultyDto (row_faculties row) |}.

Definition pageOf (dto : SearchProfessorDto) : Z :=
  match page dto with Some n => n | None => 1 end.

Definition limitOf (dto : SearchProfessorDto) : Z :=
  match limit dto with Some n => n | None => 20 end.

(** The rows of the snapshot that satisfy the predicate of a search. *)
Definition matched (db : list ProfessorRow) (dto : SearchProfessorDto)
    : list ProfessorRow :=
  filter (matches_where (findAll_where dto)) db.

(** *** Requests, one criterion at a time *)

Definition with_name (v : option string) (dto : SearchProfessorDto) :=
  {| name := v; universityId := universityId dto; facultyId := facultyId dto;
     department := department dto; minRating := minRating dto;
     maxRating := maxRating dto; minReviews := minReviews dto;
     page := page dto; limit := limit dto |}.

Definition with_universityId (v : option Z) (dto : SearchProfessorDto) :=
  {| name := name dto; universityId := v; facultyId := facultyId dto;
     department := department dto; minRating := minRating dto;
     maxRating := maxRating dto; minReviews := minReviews dto;
     page := page dto; limit := limit dto |}.

Definition with_facultyId (v : option Z) (dto : SearchProfessorDto) :=
  {| name := name dto; universityId := universityId dto; facultyId := v;
     department := department dto; minRating := minRating dto;
     maxRating := maxRating dto; minReviews := minReviews dto;
     page := page dto; limit := limit dto |}.

Definition with_department (v : option string) (dto : SearchProfessorDto) :=
  {| name := name dto; universityId := universityId dto;
     facultyId := facultyId dto; department := v; minRating := minRating dto;
     maxRating := maxRating dto; minReviews := minReviews dto;
     page := page dto; limit := limit dto |}.

Definition with_ratings (lo hi : option Q) (dto : SearchProfessorDto) :=
  {| name := name dto; universityId := universityId dto;
     facultyId := facultyId dto; department := department dto;
     minRating := lo; maxRating := hi; minReviews := minReviews dto;
     page := page dto; limit := limit dto |}.

Definition with_window (pg lm : option Z) (dto : SearchProfessorDto) :=
  {| name := name dto; universityId := universityId dto;
     facultyId := facultyId dto; department := department dto;
     minRating := minRating dto; maxRating := maxRating dto;
     minReviews := minReviews dto; page := pg; limit := lm |}.

(** The request without any criterion. *)
Definition emptyDto : SearchProfessorDto :=
  {| name := None; universityId := None; facultyId := None;
     department := None; minRating := None; maxRating := None;
     minReviews := None; page := None; limit := None |}.

(** *** Sample data: the examples of the specification *)

Definition universityA : University :=
  {| u_id := 1; u_name := "Universidad A"; u_acronym := "UA";
     u_department := Some "Math" |}.

Definition universityB : University :=
  {| u_id := 2; u_name := "Universidad B"; u_acronym := "UB";
     u_department := Some "Physics" |}.

Definition professorP : ProfessorRow :=
  {| row_id := 7; row_fullName := "Maria Garcia";
     row_averageRating := 4 # 1; row_reviewCount := 0;
     row_universities :=
       [ {| ur_universityId := 1; ur_university := universityA |};
         {| ur_universityId := 2; ur_university := universityB |} ];
     row_faculties := []; row_courses := []; row_tags := [];
     row_reviews := [] |}.

(** The constraint the specification asks for when both [universityId]
    and [department] are supplied: one joined row has the id and a
    department that contains the string. *)
Definition single_row_constraint (U : Z) (D : string) (row : ProfessorRow)
    : bool :=
  existsb
    (fun r =>
       (ur_universityId r =? U) &&
       matches_string (nameFilter D) (u_department (ur_university r)))%bool
    (row_universities row).

Definition professorQ : ProfessorRow :=
  {| row_id := 8; row_fullName := "Juan Perez";
     row_averageRating := 5 # 2; row_reviewCount := 12;
     row_universities :=
       [ {| ur_universityId := 2; ur_university := universityB |} ];
     row_faculties := []; row_courses := []; row_tags := [];
     row_reviews := [] |}.

Definition professorR : ProfessorRow :=
  {| row_id := 9; row_fullName := "Ana Torres";
     row_averageRating := 9 # 2; row_reviewCount := 30;
     row_universities :=
       [ {| ur_universityId := 1; ur_university := universityA |} ];
     row_faculties := []; row_courses := []; row_tags := [];
     row_reviews := [] |}.

Definition snapshot : list ProfessorRow := [professorP; professorQ; professorR].

Definition isVisible (r : ReviewWithCourse) : bool :=
  String.eqb (r_visibilityStatus r) "visible".

Definition courseAlgebra : Course := {| c_id := 1; c_name := "Algebra" |}.

Definition visibleReview : ReviewWithCourse :=
  {| r_id := 1; r_overallRating := 5; r_teachingQuality := 4;
     r_difficultyLevel := 3; r_mandatoryAttendance := true;
     r_classInterest := 5; r_detailedComment := Some "Excelente";
     r_gradeObtained := Some "18"; r_createdAt := 200;
     r_visibilityStatus := "visible"; r_course := courseAlgebra |}.

Definition hiddenReview : ReviewWithCourse :=
  {| r_id := 2; r_overallRating := 1; r_teachingQuality := 1;
     r_difficultyLevel := 5; r_mandatoryAttendance := false;
     r_classInterest := 1; r_detailedComment := None;
     r_gradeObtained := None; r_createdAt := 100;
     r_visibilityStatus := "hidden"; r_course := courseAlgebra |}.

Definition olderVisibleReview : ReviewWithCourse :=
  {| r_id := 3; r_overallRating := 3; r_teachingQuality := 3;
     r_difficultyLevel := 3; r_mandatoryAttendance := false;
     r_classInterest := 3; r_detailedComment := None;
     r_gradeObtained := None; r_createdAt := 50;
     r_visibilityStatus := "visible"; r_course := courseAlgebra |}.

(** A professor with a visible review (createdAt 200) and a hidden one
    (createdAt 100). *)
Definition professorTwoReviews : ProfessorRow :=
  {| row_id := 10; row_fullName := "Luis Rojas";
     row_averageRating := 3 # 1; row_reviewCount := 2;
     row_universities := []; row_faculties := []; row_courses := [];
     row_tags := []; row_reviews := [hiddenReview; visibleReview] |}.

Definition rating_boundsb (lo hi : option Q) (q : Q) : bool :=
  (optional (fun l => Qle_bool l q) lo && optional (fun h => Qle_bool q h) hi)%bool.

(** A record without its universities array; nothing else is loaded but
    the faculties. *)
Definition professorWithoutUniversities : ProfessorWithRelations :=
  {| p_id := 7; p_fullName := "Maria Garcia"; p_averageRating := 4 # 1;
     p_reviewCount := 0; p_universities := None; p_faculties := Some [];
     p_courses := None; p_tags := None; p_reviews := None |}.

(** A record as [findMany] returns it: universities and faculties loaded,
    courses, tags and reviews missing. *)
Definition professorFromList : ProfessorWithRelations := load listInclude professorP.

(** *** More requests and pages *)

Definition with_minReviews (v : option Z) (dto : SearchProfessorDto) :=
  {| name := name dto; universityId := universityId dto;
     facultyId := facultyId dto; department := department dto;
     minRating := minRating dto; maxRating := maxRating dto;
     minReviews := v; page := page dto; limit := limit dto |}.

(** [needle] occurs in [hay]: some text before it, some text after it. *)
Definition occurs_in (needle hay : string) : Prop :=
  exists before after, hay = (before ++ needle ++ after)%string.

(** The offset [findAll] computes: [(parsedPage - 1) * parsedLimit]. *)
Definition skipOf (dto : SearchProfessorDto) : Z :=
  js_mul (js_sub (pageOf dto) 1) (limitOf dto).

(** The arguments [findAll] hands to [findMany]. *)
Definition findAll_args (dto : SearchProfessorDto) : FindManyArgs :=
  {| fm_where := findAll_where dto;
     fm_skip := skipOf dto;
     fm_take := limitOf dto;
     fm_include := listInclude;
     fm_orderBy := {| ob_averageRating := desc |} |}.

(** The ids, the minimum of reviews, the page and the offset of a request
    fit 32 bits. *)
Definition fits_int32 (dto : SearchProfessorDto) : bool :=
  (isInt32_opt (universityId dto) && isInt32_opt (facultyId dto) &&
   isInt32_opt (minReviews dto) && isInt32 (pageOf dto) &&
   isInt32 ((pageOf dto - 1) * limitOf dto))%bool.

(** A request the store accepts: its integers fit 32 bits and the store
    accepts its [where] object. *)
Definition accepted (sem : StoreSemantics) (dto : SearchProfessorDto) : bool :=
  (fits_int32 dto && sem_accepts sem (findAll_where dto))%bool.

(** The rows of the snapshot that satisfy the predicate of a search, as
    a store reads it. *)
Definition matched_sem (sem : StoreSemantics) (db : list ProfessorRow)
    (dto : SearchProfessorDto) : list ProfessorRow :=
  filter (matches_where_sem sem (findAll_where dto)) db.

(** The [data] of page [k + 1], of size [lm], of a search over a
    snapshot; nothing when the search fails. *)
Definition pageData (sem : StoreSemantics) (db : list ProfessorRow)
    (dto : SearchProfessorDto) (lm : Z) (k : nat)
    : list ProfessorResponseDto :=
  match findAll (snapshotPrisma sem db)
          (with_window (Some (Z.of_nat k + 1)) (Some lm) dto) with
  | Ok resp => data resp
  | Err _ => []
  end.

(** No two rows of the list have the same rating. *)
Definition distinct_ratings (rows : list ProfessorRow) : Prop :=
  forall a b,
    In a rows -> In b rows ->
    (row_averageRating a == row_averageRating b)%Q -> a = b.

(** The entry [d] of a detail response shows the review [r]: every field
    of the entry is the field of the review, and its course is the id and
    the name of the review's course. *)
Definition review_entry_of (d : ReviewDto) (r : ReviewWithCourse) : Prop :=
  rd_id d = r_id r /\
  rd_overallRating d = r_overallRating r /\
  rd_teachingQuality d = r_teachingQuality r /\
  rd_difficultyLevel d = r_difficultyLevel r /\
  rd_mandatoryAttendance d = r_mandatoryAttendance r /\
  rd_classInterest d = r_classInterest r /\
  rd_detailedComment d = r_detailedComment r /\
  rd_gradeObtained d = r_gradeObtained r /\
  rd_createdAt d = r_createdAt r /\
  cd_id (rd_course d) = c_id (r_course r) /\
  cd_name (rd_course d) = c_name (r_course r).


(** The summary fields of a detail DTO. *)
Definition summaryOfDetail (d : ProfessorDetailResponseDto) : ProfessorResponseDto :=
  {| pr_id := pd_id d;
     pr_fullName := pd_fullName d;
     pr_averageRating := pd_averageRating d;
     pr_reviewCount := pd_reviewCount d;
     pr_universities := pd_universities d;
     pr_faculties := pd_faculties d |}.

(** Over a snapshot, request [a] selects no professor that request [b]
    does not select, and so counts no more. *)
Definition narrows (db : list ProfessorRow) (a b : SearchProfessorDto) : Prop :=
  (forall row, In row (matched db a) -> In row (matched db b)) /\
  (List.length (matched db a) <= List.length (matched db b))%nat.

(* ================================================================== *)
(** * Properties *)

(** ** The ordering *)

Section SortFacts.
Context {A : Type} (leb : A -> A -> bool).

Lemma insert_by_perm (x : A) (l : list A) :
  Permutation (x :: l) (insert_by leb x l).
Proof.
  induction l as [|y t IH]; simpl.
  - reflexivity.
  - destruct (leb x y).
    + reflexivity.
    + rewrite perm_swap. now constructor.
Qed.

Lemma sort_by_perm (l : list A) : Permutation l (sort_by leb l).
Proof.
  induction l as [|x t IH]; simpl.
  - constructor.
  - rewrite <- insert_by_perm. now constructor.
Qed.

Lemma sort_by_length (l : list A) : List.length (sort_by leb l) = List.length l.
Proof. symmetry. apply Permutation_length, sort_by_perm. Qed.

Lemma sort_by_In (x : A) (l : list A) : In x (sort_by leb l) <-> In x l.
Proof.
  split; apply Permutation_in; [symmetry|]; apply sort_by_perm.
Qed.

Hypothesis leb_total : forall x y, leb x y = true \/ leb y x = true.
Hypothesis leb_trans :
  forall x y z, leb x y = true -> leb y z = true -> leb x z = true.

Lemma insert_by_sorted (x : A) (l : list A) :
  StronglySorted (fun a b => leb a b = true) l ->
  StronglySorted (fun a b => leb a b = true) (insert_by leb x l).
Proof.
  induction 1 as [|y t Ht IH Hy]; simpl.
  - repeat constructor.
  - destruct (leb x y) eqn:E.
    + constructor.
      * now constructor.
      * constructor; [exact E|].
        eapply Forall_impl; [|exact Hy].
        intros z Hz. now apply leb_trans with y.
    + constructor; [exact IH|].
      apply (Permutation_Forall (insert_by_perm x t)).
      constructor; [|exact Hy].
      destruct (leb_total x y) as [H|H]; [congruence|exact H].
Qed.

Lemma sort_by_sorted (l : list A) :
  StronglySorted (fun a b => leb a b = true) (sort_by leb l).
Proof.
  induction l as [|x t IH]; simpl.
  - constructor.
  - now apply insert_by_sorted.
Qed.
End SortFacts.

Lemma StronglySorted_impl {A : Type} (R R' : A -> A -> Prop) (l : list A) :
  (forall a b, R a b -> R' a b) -> StronglySorted R l -> StronglySorted R' l.
Proof.
  intros HR. induction 1 as [|x t Ht IH Hx]; constructor; auto.
  eapply Forall_impl; [|exact Hx]. intros; now apply HR.
Qed.

Lemma StronglySorted_map {A B : Type} (f : A -> B) (R : B -> B -> Prop)
    (l : list A) :
  StronglySorted (fun a b => R (f a) (f b)) l -> StronglySorted R (map f l).
Proof.
  induction 1 as [|x t Ht IH Hx]; simpl; constructor; auto.
  rewrite Forall_map. exact Hx.
Qed.

Lemma StronglySorted_firstn {A : Type} (R : A -> A -> Prop) (n : nat)
    (l : list A) :
  StronglySorted R l -> StronglySorted R (firstn n l).
Proof.
  intros H. revert n.
  induction H as [|x t Ht IH Hx]; intros [|n]; simpl; try constructor.
  - apply IH.
  - rewrite Forall_forall in *. intros y Hy. apply Hx.
    rewrite <- (firstn_skipn n t). apply in_or_app. now left.
Qed.

Lemma rating_leb_total (o : SortOrder) (x y : ProfessorRow) :
  rating_leb o x y = true \/ rating_leb o y x = true.
Proof.
  destruct o; simpl; rewrite !Qle_bool_iff;
    destruct (Qlt_le_dec (row_averageRating x) (row_averageRating y)) as [H|H];
    auto using Qlt_le_weak.
Qed.

Lemma rating_leb_trans (o : SortOrder) (x y z : ProfessorRow) :
  rating_leb o x y = true -> rating_leb o y z = true -> rating_leb o x z = true.
Proof.
  destruct o; simpl; rewrite !Qle_bool_iff; intros; eapply Qle_trans; eauto.
Qed.

Lemma createdAt_leb_total (o : SortOrder) (x y : ReviewWithCourse) :
  createdAt_leb o x y = true \/ createdAt_leb o y x = true.
Proof. destruct o; simpl; lia. Qed.

Lemma createdAt_leb_trans (o : SortOrder) (x y z : ReviewWithCourse) :
  createdAt_leb o x y = true -> createdAt_leb o y z = true ->
  createdAt_leb o x z = true.
Proof. destruct o; simpl; lia. Qed.

(** ** [Math.ceil] of a quotient of integers *)

Lemma Math_ceil_div_pos (a b : Z) :
  0 < b -> Math_ceil_div a b = JsInt (- ((- a) / b)).
Proof.
  intros Hb. unfold Math_ceil_div.
  destruct (Z.eqb_spec b 0) as [->|_]; [lia|].
  f_equal. unfold Qceiling. f_equal.
  rewrite Zdiv_Qdiv. apply Qfloor_comp.
  rewrite inject_Z_opp. unfold Qdiv. ring.
Qed.

Lemma ceil_div_bounds (a b : Z) :
  0 < b -> (- ((- a) / b) - 1) * b < a <= - ((- a) / b) * b.
Proof.
  intros Hb.
  pose proof (Z.div_mod (- a) b ltac:(lia)) as Hdm.
  pose proof (Z.mod_pos_bound (- a) b Hb) as Hm.
  nia.
Qed.

(** ** The [where] object, field by field *)

Lemma if_truthy_number_twice {A : Type} (x : option Z) (f : Z -> A) :
  if_truthy_number (if_truthy_number x (fun n => n)) f = if_truthy_number x f.
Proof.
  destruct x as [n|]; simpl; [|reflexivity].
  destruct (truthy_number n) eqn:E; simpl; [rewrite E|]; reflexivity.
Qed.

Lemma findAll_where_fullName (dto : SearchProfessorDto) :
  w_fullName (findAll_where dto) = if_truthy_string (name dto) nameFilter.
Proof.
  unfold findAll_where. rewrite !if_truthy_number_twice.
  destruct dto as [n u f d lo hi mr pg lm]; simpl.
  destruct (if_truthy_string n _), lo, hi, mr, (if_truthy_number u _),
    (if_truthy_number f _), (if_truthy_string d _); reflexivity.
Qed.

Lemma findAll_where_averageRating (dto : SearchProfessorDto) :
  w_averageRating (findAll_where dto) =
  if (isSome (minRating dto) || isSome (maxRating dto))%bool
  then Some {| ff_gte := minRating dto; ff_lte := maxRating dto |}
  else None.
Proof.
  unfold findAll_where. rewrite !if_truthy_number_twice.
  destruct dto as [n u f d lo hi mr pg lm]; simpl.
  destruct (if_truthy_string n _), lo, hi, mr, (if_truthy_number u _),
    (if_truthy_number f _), (if_truthy_string d _); reflexivity.
Qed.

Lemma findAll_where_reviewCount (dto : SearchProfessorDto) :
  w_reviewCount (findAll_where dto) =
  option_map (fun n => {| if_gte := Some n |}) (minReviews dto).
Proof.
  unfold findAll_where. rewrite !if_truthy_number_twice.
  destruct dto as [n u f d lo hi mr pg lm]; simpl.
  destruct (if_truthy_string n _), lo, hi, mr, (if_truthy_number u _),
    (if_truthy_number f _), (if_truthy_string d _); reflexivity.
Qed.

(** The department filter is assigned last to [where.universities]: when
    it is defined it replaces the university-id filter. *)
Lemma findAll_where_universities (dto : SearchProfessorDto) :
  w_universities (findAll_where dto) =
  match if_truthy_string (department dto) departmentFilter with
  | Some f => Some f
  | None => if_truthy_number (universityId dto) universityIdFilter
  end.
Proof.
  unfold findAll_where. rewrite !if_truthy_number_twice.
  destruct dto as [n u f d lo hi mr pg lm]; simpl.
  unfold departmentFilter, universityIdFilter, nameFilter.
  destruct (if_truthy_string n _), lo, hi, mr, (if_truthy_number u _),
    (if_truthy_number f _), (if_truthy_string d _); reflexivity.
Qed.

Lemma findAll_where_faculties (dto : SearchProfessorDto) :
  w_faculties (findAll_where dto) =
  if_truthy_number (facultyId dto)
    (fun n => {| pf_some := {| pfw_facultyId := Some n |} |}).
Proof.
  unfold findAll_where. rewrite !if_truthy_number_twice.
  destruct dto as [n u f d lo hi mr pg lm]; simpl.
  destruct (if_truthy_string n _), lo, hi, mr, (if_truthy_number u _),
    (if_truthy_number f _), (if_truthy_string d _); reflexivity.
Qed.

Lemma where_eta (w : ProfessorWhereInput) :
  w = {| w_fullName := w_fullName w; w_averageRating := w_averageRating w;
         w_reviewCount := w_reviewCount w; w_universities := w_universities w;
         w_faculties := w_faculties w |}.
Proof. now destruct w. Qed.

(** ** JavaScript arithmetic below 2^53 *)

Lemma js_round_exact (n : Z) : Z.abs n <= 2 ^ 53 -> js_round n = n.
Proof.
  intros H. unfold js_round. cbv zeta.
  destruct (Z.leb_spec (Z.abs n) (2 ^ 53)) as [_|H']; [reflexivity|lia].
Qed.

Lemma js_offset_exact (pg lm : Z) :
  Z.abs (pg - 1) <= 2 ^ 53 -> Z.abs ((pg - 1) * lm) <= 2 ^ 53 ->
  js_mul (js_sub pg 1) lm = (pg - 1) * lm.
Proof.
  intros H1 H2. unfold js_mul, js_sub.
  rewrite (js_round_exact (pg - 1)) by exact H1.
  now apply js_round_exact.
Qed.

Lemma isInt32_iff (n : Z) :
  isInt32 n = true <-> -2147483648 <= n <= 2147483647.
Proof. unfold isInt32. rewrite andb_true_iff, !Z.leb_le. tauto. Qed.

Lemma fits_int32_skipOf (dto : SearchProfessorDto) :
  fits_int32 dto = true -> skipOf dto = (pageOf dto - 1) * limitOf dto.
Proof.
  unfold fits_int32. rewrite !andb_true_iff, !isInt32_iff.
  intros [[_ Hp] Hs]. apply js_offset_exact.
  - change (2 ^ 53) with 9007199254740992. lia.
  - change (2 ^ 53) with 9007199254740992. lia.
Qed.

Lemma fits_int32_where (dto : SearchProfessorDto) :
  fits_int32 dto = true -> where_in_range (findAll_where dto) = true.
Proof.
  unfold fits_int32, where_in_range.
  rewrite findAll_where_reviewCount, findAll_where_universities,
    findAll_where_faculties.
  rewrite !andb_true_iff. intros [[[[Hu Hf] Hm] _] _].
  repeat split.
  - destruct (minReviews dto); [exact Hm|reflexivity].
  - assert (Hid : match if_truthy_number (universityId dto) universityIdFilter with
                  | Some f => isInt32_opt (puw_universityId (pu_some f))
                  | None => true
                  end = true).
    { destruct (universityId dto) as [n|]; [|reflexivity].
      cbn [if_truthy_number].
      destruct (truthy_number n); [exact Hu|reflexivity]. }
    destruct (department dto) as [d|]; cbn [if_truthy_string]; [|exact Hid].
    destruct (truthy_string d); [reflexivity|exact Hid].
  - destruct (facultyId dto) as [n|]; [|reflexivity].
    cbn [if_truthy_number]. destruct (truthy_number n); [exact Hf|reflexivity].
Qed.

Lemma accepted_store (sem : StoreSemantics) (dto : SearchProfessorDto) :
  accepted sem dto = true ->
  store_accepts sem (findAll_where dto) = true /\
  skipOf dto = (pageOf dto - 1) * limitOf dto.
Proof.
  unfold accepted, store_accepts. rewrite andb_true_iff. intros [Hf Ha].
  rewrite (fits_int32_where dto Hf), Ha. split; [reflexivity|].
  now apply fits_int32_skipOf.
Qed.

(** ** Searching the snapshot *)

Lemma map_result_listInclude (sem : StoreSemantics) (rows : list ProfessorRow) :
  map_result mapToProfessorResponse (map (load_sem sem listInclude) rows) =
  Ok (map summaryOf rows).
Proof.
  induction rows as [|row t IH]; simpl.
  - reflexivity.
  - rewrite IH. reflexivity.
Qed.

Lemma validate_window (dto : SearchProfessorDto) :
  validate dto = true -> 1 <= pageOf dto /\ 1 <= limitOf dto <= 100.
Proof.
  unfold validate, pageOf, limitOf.
  destruct (page dto), (limit dto); simpl;
    rewrite ?andb_true_iff; intros; lia.
Qed.

(** The search over a snapshot: the store refuses a [where] object it
    does not accept and a negative offset, and otherwise the search
    succeeds. *)
Lemma findAll_snapshot_cases (sem : StoreSemantics) (db : list ProfessorRow)
    (dto : SearchProfessorDto) :
  findAll (snapshotPrisma sem db) dto =
  if store_accepts sem (findAll_where dto) then
    if skipOf dto <? 0 then Err PrismaClientValidationError
    else
      Ok {| data :=
              map summaryOf
                (window (skipOf dto) (limitOf dto)
                   (sem_order sem (findAll_args dto) (matched_sem sem db dto)));
            meta :=
              {| total := Z.of_nat (List.length (matched_sem sem db dto));
                 meta_page := pageOf dto;
                 lastPage :=
                   Math_ceil_div (Z.of_nat (List.length (matched_sem sem db dto)))
                     (limitOf dto);
                 meta_limit := limitOf dto |} |}
  else Err PrismaClientValidationError.
Proof.
  unfold findAll. fold (pageOf dto). fold (limitOf dto). fold (skipOf dto).
  change {| fm_where := findAll_where dto; fm_skip := skipOf dto;
            fm_take := limitOf dto; fm_include := listInclude;
            fm_orderBy := {| ob_averageRating := desc |} |}
    with (findAll_args dto).
  cbn [snapshotPrisma professor_count professor_findMany].
  unfold snapshot_count, snapshot_findMany.
  cbn [findAll_args fm_skip fm_take fm_where fm_include fm_orderBy].
  fold (findAll_args dto).
  destruct (store_accepts sem (findAll_where dto)); cbn [bind]; [|reflexivity].
  destruct (skipOf dto <? 0); cbn [orb negb bind]; [reflexivity|].
  fold (matched_sem sem db dto).
  rewrite map_result_listInclude. reflexivity.
Qed.

(** A validated request that the store accepts is served. *)
Lemma findAll_snapshot (sem : StoreSemantics) (db : list ProfessorRow)
    (dto : SearchProfessorDto) :
  validate dto = true -> accepted sem dto = true ->
  findAll (snapshotPrisma sem db) dto =
  Ok {| data :=
          map summaryOf
            (window ((pageOf dto - 1) * limitOf dto) (limitOf dto)
               (sem_order sem (findAll_args dto) (matched_sem sem db dto)));
        meta :=
          {| total := Z.of_nat (List.length (matched_sem sem db dto));
             meta_page := pageOf dto;
             lastPage :=
               Math_ceil_div (Z.of_nat (List.length (matched_sem sem db dto)))
                 (limitOf dto);
             meta_limit := limitOf dto |} |}.
Proof.
  intros Hv Hf. apply validate_window in Hv.
  destruct (accepted_store sem dto Hf) as [Ha Hs].
  rewrite findAll_snapshot_cases, Ha, Hs.
  destruct (Z.ltb_spec ((pageOf dto - 1) * limitOf dto) 0) as [H|_]; [nia|].
  reflexivity.
Qed.

(** Whatever a search over a snapshot returns. *)
Lemma findAll_snapshot_Ok (sem : StoreSemantics) (db : list ProfessorRow)
    (dto : SearchProfessorDto) (resp : PaginatedProfessorsResponseDto) :
  findAll (snapshotPrisma sem db) dto = Ok resp ->
  store_accepts sem (findAll_where dto) = true /\
  0 <= skipOf dto /\
  resp =
    {| data :=
         map summaryOf
           (window (skipOf dto) (limitOf dto)
              (sem_order sem (findAll_args dto) (matched_sem sem db dto)));
       meta :=
         {| total := Z.of_nat (List.length (matched_sem sem db dto));
            meta_page := pageOf dto;
            lastPage :=
              Math_ceil_div (Z.of_nat (List.length (matched_sem sem db dto)))
                (limitOf dto);
            meta_limit := limitOf dto |} |}.
Proof.
  rewrite findAll_snapshot_cases.
  destruct (store_accepts sem (findAll_where dto)); [|discriminate].
  destruct (Z.ltb_spec (skipOf dto) 0) as [H|H]; [discriminate|].
  intros Hok. injection Hok as <-. auto.
Qed.

(** The literal store is lawful. *)
Lemma literalSemantics_laws : StoreLaws literalSemantics.
Proof.
  constructor; intros; cbn [literalSemantics sem_order sem_order_reviews].
  - symmetry. apply sort_by_perm.
  - apply sort_by_sorted; [apply rating_leb_total|apply rating_leb_trans].
  - symmetry. apply sort_by_perm.
  - apply sort_by_sorted; [apply createdAt_leb_total|apply createdAt_leb_trans].
Qed.

(** ** Equality of [where] objects *)

(** Two [where] objects are equal when their five fields are. *)
Ltac where_fields :=
  match goal with
  | |- findAll_where ?a = findAll_where ?b =>
      rewrite (where_eta (findAll_where a)), (where_eta (findAll_where b));
      rewrite !findAll_where_fullName, !findAll_where_averageRating,
        !findAll_where_reviewCount, !findAll_where_universities,
        !findAll_where_faculties
  end.

Lemma findAll_where_window (pg lm : option Z) (dto : SearchProfessorDto) :
  findAll_where (with_window pg lm dto) = findAll_where dto.
Proof. where_fields. reflexivity. Qed.

(** ** Search: the predicate, the count and the window *)

(** C1.  The service does not combine [universityId] and [department]:
    whenever a non-empty department is supplied, the [where] object is the
    one of the same request without its university id, so the id criterion
    is lost.  On the example of the specification (professor P linked to
    University A, id 1, department Math, and to University B, id 2,
    department Physics; search with universityId = 1 and department =
    Physics) no joined row of P has both id 1 and a department containing
    Physics, and the search returns P all the same. *)
Theorem findAll_department_overwrites_universityId :
  (forall dto U c d,
     findAll_where
       (with_universityId (Some U) (with_department (Some (String c d)) dto)) =
     findAll_where
       (with_universityId None (with_department (Some (String c d)) dto))) /\
  single_row_constraint 1 "Physics" professorP = false /\
  exists resp,
    findAll (memoryPrisma [professorP])
      (with_universityId (Some 1) (with_department (Some "Physics") emptyDto)) =
    Ok resp /\
    data resp = [summaryOf professorP] /\ total (meta resp) = 1.
Proof.
  split; [|split].
  - intros dto U c d. where_fields. reflexivity.
  - reflexivity.
  - eexists. split; [|split]; reflexivity.
Qed.

(** C2.  For every store, whenever a search returns, [meta.total] is
    what the store's count answered for the [where] object of the request
    and [data] is the projection of what the store's fetch answered for
    that same [where] object.  Over a snapshot, for every reading of
    [contains] and every order of ties, [meta.total] is then the number of
    professors of the snapshot that satisfy that [where] object, whatever
    the page and the limit, and [data] is the window of the ordered list
    of the professors that satisfy it.  The [where] object does not depend
    on the page and the limit, and a validated request that the store
    accepts is served. *)
Theorem findAll_total_same_predicate
    (sem : StoreSemantics) (db : list ProfessorRow) (dto : SearchProfessorDto) :
  (forall prisma resp,
     findAll prisma dto = Ok resp ->
     exists professors,
       professor_count prisma (findAll_where dto) = Ok (total (meta resp)) /\
       professor_findMany prisma
         {| fm_where := findAll_where dto;
            fm_skip := skipOf dto;
            fm_take := limitOf dto;
            fm_include := listInclude;
            fm_orderBy := {| ob_averageRating := desc |} |} = Ok professors /\
       map_result mapToProfessorResponse professors = Ok (data resp)) /\
  (forall resp,
     findAll (snapshotPrisma sem db) dto = Ok resp ->
     total (meta resp) =
       Z.of_nat
         (List.length (filter (matches_where_sem sem (findAll_where dto)) db)) /\
     data resp =
       map summaryOf
         (window (skipOf dto) (limitOf dto)
            (sem_order sem (findAll_args dto)
               (filter (matches_where_sem sem (findAll_where dto)) db)))) /\
  (forall pg lm,
     findAll_where (with_window pg lm dto) = findAll_where dto) /\
  (validate dto = true -> accepted sem dto = true ->
   exists resp, findAll (snapshotPrisma sem db) dto = Ok resp).
Proof.
  split; [|split; [|split]].
  - intros prisma resp. unfold findAll.
    fold (pageOf dto). fold (limitOf dto). fold (skipOf dto).
    destruct (professor_count prisma (findAll_where dto)) as [count|e1];
      cbn [bind]; [|discriminate].
    destruct (professor_findMany prisma _) as [rows|e2];
      cbn [bind]; [|discriminate].
    destruct (map_result mapToProfessorResponse rows) as [ds|e3] eqn:Hmap;
      cbn [bind]; [|discriminate].
    intros H. injection H as <-. exists rows. cbn [data meta total]. auto.
  - intros resp Hresp. apply findAll_snapshot_Ok in Hresp.
    destruct Hresp as [_ [_ ->]]. split; reflexivity.
  - intros pg lm. apply findAll_where_window.
  - intros Hv Hf. eexists. now apply findAll_snapshot.
Qed.

Lemma findAll_total_same_predicate_witness :
  let dto := with_window (Some 2) (Some 1)
               (with_universityId (Some 1) emptyDto) in
  validate dto = true /\ accepted literalSemantics dto = true /\
  exists resp,
    findAll (snapshotPrisma literalSemantics snapshot) dto = Ok resp /\
    total (meta resp) =
      Z.of_nat
        (List.length
           (filter (matches_where_sem literalSemantics (findAll_where dto))
              snapshot)) /\
    data resp =
      map summaryOf
        (window (skipOf dto) (limitOf dto)
           (sem_order literalSemantics (findAll_args dto)
              (filter (matches_where_sem literalSemantics (findAll_where dto))
                 snapshot))).
Proof.
  split; [reflexivity|]. split; [reflexivity|].
  destruct (findAll_total_same_predicate literalSemantics snapshot
              (with_window (Some 2) (Some 1)
                 (with_universityId (Some 1) emptyDto)))
    as [_ [Hsame [_ Hreturns]]].
  destruct (Hreturns eq_refl eq_refl) as [resp Hresp].
  exists resp. split; [exact Hresp|]. exact (Hsame resp Hresp).
Defined.

(** Two professors of the snapshot are linked to university 1; page 2 of
    size 1 holds the second best rated of them and the total is 2. *)
Example findAll_university_1_page_2 :
  findAll (memoryPrisma snapshot)
    (with_window (Some 2) (Some 1) (with_universityId (Some 1) emptyDto)) =
  Ok {| data := [summaryOf professorP];
        meta := {| total := 2; meta_page := 2; lastPage := JsInt 2;
                   meta_limit := 1 |} |}.
Proof. reflexivity. Qed.




(** ** Detail lookup over the snapshot *)

Lemma findOne_snapshot (sem : StoreSemantics) (db : list ProfessorRow) (id : Z) :
  findOne (snapshotPrisma sem db) id =
  if isInt32 id then
    match find (fun row => row_id row =? id) db with
    | Some row =>
        Ok {| pd_id := row_id row;
              pd_fullName := row_fullName row;
              pd_averageRating := row_averageRating row;
              pd_reviewCount := row_reviewCount row;
              pd_universities := map universityDto (row_universities row);
              pd_faculties := map facultyDto (row_faculties row);
              pd_courses := map courseDto (row_courses row);
              pd_tags := map tagDto (row_tags row);
              pd_reviews :=
                map reviewDto
                  (sem_order_reviews sem desc
                     (filter isVisible (row_reviews row))) |}
    | None => Err (NotFoundException id)
    end
  else Err PrismaClientValidationError.
Proof.
  unfold findOne.
  cbn [snapshotPrisma professor_findUnique]. unfold snapshot_findUnique.
  cbn [fu_where_id fu_include].
  destruct (isInt32 id); cbn [bind]; [|reflexivity].
  destruct (find (fun row => row_id row =? id) db) as [row|]; reflexivity.
Qed.

Lemma reviewDto_entry (rs : list ReviewWithCourse) :
  Forall2 review_entry_of (map reviewDto rs) rs.
Proof.
  induction rs as [|r t IH]; simpl; constructor; [|exact IH].
  unfold review_entry_of. repeat split.
Qed.

(** C4.  For every lookup of an id the snapshot holds, for every lawful
    order of ties, [findOne] succeeds and its reviews show, entry by
    entry and field by field, a list of reviews that is exactly (with
    multiplicity) the professor's reviews whose visibilityStatus is
    'visible', in descending order of createdAt. *)
Theorem findOne_reviews_visible_desc
    (sem : StoreSemantics) (db : list ProfessorRow) (id : Z)
    (row : ProfessorRow) :
  StoreLaws sem ->
  isInt32 id = true ->
  find (fun r => row_id r =? id) db = Some row ->
  exists dto shown,
    findOne (snapshotPrisma sem db) id = Ok dto /\
    Forall2 review_entry_of (pd_reviews dto) shown /\
    Permutation shown
      (filter (fun r => String.eqb (r_visibilityStatus r) "visible")
         (row_reviews row)) /\
    StronglySorted (fun a b => r_createdAt b <= r_createdAt a) shown.
Proof.
  intros Hlaws Hid Hfind.
  rewrite findOne_snapshot, Hid, Hfind.
  eexists. exists (sem_order_reviews sem desc (filter isVisible (row_reviews row))).
  split; [reflexivity|]. cbn [pd_reviews]. split; [|split].
  - apply reviewDto_entry.
  - apply (reviews_permutation sem Hlaws).
  - eapply StronglySorted_impl; [|apply (reviews_sorted sem Hlaws desc)].
    intros a b Hab. cbn in Hab. lia.
Qed.

Lemma findOne_reviews_visible_desc_witness :
  StoreLaws literalSemantics /\
  isInt32 10 = true /\
  find (fun r => row_id r =? 10) (snapshot ++ [professorTwoReviews]) =
    Some professorTwoReviews /\
  exists dto shown,
    findOne (snapshotPrisma literalSemantics (snapshot ++ [professorTwoReviews]))
      10 = Ok dto /\
    Forall2 review_entry_of (pd_reviews dto) shown /\
    Permutation shown
      (filter (fun r => String.eqb (r_visibilityStatus r) "visible")
         (row_reviews professorTwoReviews)) /\
    StronglySorted (fun a b => r_createdAt b <= r_createdAt a) shown.
Proof.
  split; [exact literalSemantics_laws|].
  split; [reflexivity|]. split; [reflexivity|].
  apply (findOne_reviews_visible_desc literalSemantics
           (snapshot ++ [professorTwoReviews]) 10 professorTwoReviews).
  - exact literalSemantics_laws.
  - reflexivity.
  - reflexivity.
Defined.

(** The example of the specification, evaluated: only the visible review
    is returned; and with a second, older visible review the newer one
    comes first. *)
Example findOne_two_reviews :
  option_map pd_reviews
    (match findOne (memoryPrisma [professorTwoReviews]) 10 with
     | Ok dto => Some dto
     | Err _ => None
     end) = Some [reviewDto visibleReview].
Proof. reflexivity. Qed.

Example findOne_three_reviews :
  let row :=
    {| row_id := 11; row_fullName := "Rosa Diaz";
       row_averageRating := 3 # 1; row_reviewCount := 3;
       row_universities := []; row_faculties := []; row_courses := [];
       row_tags := [];
       row_reviews := [olderVisibleReview; hiddenReview; visibleReview] |} in
  option_map pd_reviews
    (match findOne (memoryPrisma [row]) 11 with
     | Ok dto => Some dto
     | Err _ => None
     end) = Some [reviewDto visibleReview; reviewDto olderVisibleReview].
Proof. reflexivity. Qed.

(** C5, as stated, fails: the id 2147483648, which the route accepts,
    matches no professor of the snapshot, and [findOne] does not fail
    with NotFound but with the store's refusal of an id out of range. *)
Lemma findOne_out_of_range_id :
  (forall row, In row snapshot -> row_id row <> 2147483648) /\
  findOne (memoryPrisma snapshot) 2147483648 =
    Err PrismaClientValidationError /\
  findOne (memoryPrisma snapshot) 2147483648 <>
    Err (NotFoundException 2147483648).
Proof.
  split; [|split].
  - intros row [<-|[<-|[<-|[]]]]; discriminate.
  - reflexivity.
  - discriminate.
Qed.

(** C5, amended.  For every id that fits the 32 bits of the id column,
    over a snapshot, [findOne] fails with NotFound exactly when no
    professor of the snapshot has the id, it returns a detail DTO exactly
    when one has, and it has no other outcome. *)
Theorem findOne_NotFound_iff
    (sem : StoreSemantics) (db : list ProfessorRow) (id : Z) :
  isInt32 id = true ->
  (findOne (snapshotPrisma sem db) id = Err (NotFoundException id) <->
   forall row, In row db -> row_id row <> id) /\
  ((exists dto, findOne (snapshotPrisma sem db) id = Ok dto) <->
   exists row, In row db /\ row_id row = id) /\
  (forall e,
     findOne (snapshotPrisma sem db) id = Err e -> e = NotFoundException id).
Proof.
  intros Hid. rewrite findOne_snapshot, Hid.
  destruct (find (fun row => row_id row =? id) db) as [row|] eqn:Hfind.
  - apply find_some in Hfind. destruct Hfind as [Hin Heq].
    apply Z.eqb_eq in Heq.
    split; [|split].
    + split; [discriminate|]. intros H. now apply H in Hin.
    + split; [|now eexists]. intros _. now exists row.
    + discriminate.
  - pose proof (find_none _ _ Hfind) as Hnone.
    split; [|split].
    + split; [|reflexivity]. intros _ row Hin.
      apply Hnone in Hin. now apply Z.eqb_neq in Hin.
    + split; [intros [dto H]; discriminate|].
      intros [row [Hin Heq]]. apply Hnone in Hin.
      apply Z.eqb_neq in Hin. contradiction.
    + intros e H. now inversion H.
Qed.

Lemma findOne_NotFound_iff_witness :
  isInt32 9 = true /\
  (findOne (snapshotPrisma literalSemantics snapshot) 9 =
     Err (NotFoundException 9) <->
   forall row, In row snapshot -> row_id row <> 9) /\
  ((exists dto, findOne (snapshotPrisma literalSemantics snapshot) 9 = Ok dto) <->
   exists row, In row snapshot /\ row_id row = 9) /\
  (forall e,
     findOne (snapshotPrisma literalSemantics snapshot) 9 = Err e ->
     e = NotFoundException 9).
Proof.
  split; [reflexivity|].
  apply (findOne_NotFound_iff literalSemantics snapshot 9). reflexivity.
Defined.

(** ** Rating bounds *)


(** The [where] object of a request is the one of the request without its
    rating bounds, and the bounds: for every reading of [contains]. *)
Lemma matches_where_sem_ratings (sem : StoreSemantics)
    (dto : SearchProfessorDto) (row : ProfessorRow) :
  matches_where_sem sem (findAll_where dto) row =
  (matches_where_sem sem (findAll_where (with_ratings None None dto)) row &&
   rating_boundsb (minRating dto) (maxRating dto) (row_averageRating row))%bool.
Proof.
  unfold matches_where_sem.
  rewrite !findAll_where_fullName, !findAll_where_averageRating,
    !findAll_where_reviewCount, !findAll_where_universities,
    !findAll_where_faculties.
  cbn [with_ratings name universityId facultyId department minRating
       maxRating minReviews isSome orb].
  unfold rating_boundsb, matches_float.
  destruct (minRating dto), (maxRating dto); simpl; btauto.
Qed.

Lemma matches_where_ratings (dto : SearchProfessorDto) (row : ProfessorRow) :
  matches_where (findAll_where dto) row =
  (matches_where (findAll_where (with_ratings None None dto)) row &&
   rating_boundsb (minRating dto) (maxRating dto) (row_averageRating row))%bool.
Proof. exact (matches_where_sem_ratings literalSemantics dto row). Qed.

Lemma In_window {A : Type} (skip take : Z) (l : list A) (x : A) :
  In x (window skip take l) -> In x l.
Proof.
  assert (Hsub : forall n m (k : list A), In x (firstn n (skipn m k)) -> In x k).
  { intros n m k H.
    rewrite <- (firstn_skipn m k). apply in_or_app. right.
    rewrite <- (firstn_skipn n (skipn m k)). apply in_or_app. now left. }
  unfold window. destruct (0 <=? take).
  - apply Hsub.
  - intros H. apply in_rev in H. apply Hsub in H. now apply in_rev.
Qed.

Lemma In_page (sem : StoreSemantics) (db : list ProfessorRow)
    (dto : SearchProfessorDto) (args : FindManyArgs) (skip take : Z)
    (s : ProfessorResponseDto) :
  StoreLaws sem ->
  In s (map summaryOf
          (window skip take (sem_order sem args (matched_sem sem db dto)))) ->
  exists row,
    In row db /\ matches_where_sem sem (findAll_where dto) row = true /\
    s = summaryOf row.
Proof.
  intros Hlaws Hs. apply in_map_iff in Hs. destruct Hs as [row [<- Hrow]].
  apply In_window in Hrow.
  apply (Permutation_in _ (order_permutation sem Hlaws args _)) in Hrow.
  unfold matched_sem in Hrow. apply filter_In in Hrow.
  exists row. tauto.
Qed.



(** minRating = 3 and maxRating = 4.5 over professors rated 4, 2.5 and
    4.5: the two within [3, 4.5] are returned, the best rated first; and
    one bound alone is applied alone. *)
Example findAll_rating_3_to_4_5 :
  findAll (memoryPrisma snapshot)
    (with_ratings (Some (3 # 1)) (Some (9 # 2)) emptyDto) =
  Ok {| data := [summaryOf professorR; summaryOf professorP];
        meta := {| total := 2; meta_page := 1; lastPage := JsInt 1;
                   meta_limit := 20 |} |}.
Proof. reflexivity. Qed.

Example findAll_maxRating_alone :
  findAll (memoryPrisma snapshot) (with_ratings None (Some (4 # 1)) emptyDto) =
  Ok {| data := [summaryOf professorP; summaryOf professorQ];
        meta := {| total := 2; meta_page := 1; lastPage := JsInt 1;
                   meta_limit := 20 |} |}.
Proof. reflexivity. Qed.

(** ** The empty request *)

Lemma filter_all {A : Type} (f : A -> bool) (l : list A) :
  (forall x, f x = true) -> filter f l = l.
Proof.
  intros Hf. induction l as [|x t IH]; simpl.
  - reflexivity.
  - rewrite Hf, IH. reflexivity.
Qed.

Lemma order_professors_sorted (o : SortOrder) (rows : list ProfessorRow) :
  StronglySorted (fun a b => rating_leb o a b = true)
    (order_professors {| ob_averageRating := o |} rows).
Proof.
  apply sort_by_sorted.
  - apply rating_leb_total.
  - apply rating_leb_trans.
Qed.

(** The empty request over the literal store. *)
Lemma findAll_memory_empty (db : list ProfessorRow) :
  findAll (memoryPrisma db) emptyDto =
  Ok {| data :=
          map summaryOf
            (firstn 20 (order_professors {| ob_averageRating := desc |} db));
        meta :=
          {| total := Z.of_nat (List.length db);
             meta_page := 1;
             lastPage := Math_ceil_div (Z.of_nat (List.length db)) 20;
             meta_limit := 20 |} |}.
Proof.
  unfold memoryPrisma. rewrite findAll_snapshot_cases.
  change (store_accepts literalSemantics (findAll_where emptyDto)) with true.
  change (skipOf emptyDto) with 0. change (limitOf emptyDto) with 20.
  change (pageOf emptyDto) with 1. cbv iota. change (0 <? 0) with false.
  cbv iota.
  unfold matched_sem.
  rewrite (filter_all (matches_where_sem literalSemantics (findAll_where emptyDto))
             db (fun row => eq_refl)).
  reflexivity.
Qed.

(** C7.  With no criterion, page or limit, the [where] object is empty and
    every professor satisfies it; for every store the count is taken with
    the empty [where] and the fetch is issued with it, offset 0, window 20
    and averageRating descending, and the response reports page 1 and
    limit 20; over a snapshot the search succeeds and returns the first
    20 (at most) of all its professors in descending order of
    averageRating. *)
Theorem findAll_empty_criteria (db : list ProfessorRow) :
  findAll_where emptyDto = emptyWhere /\
  (forall row, matches_where (findAll_where emptyDto) row = true) /\
  (forall prisma,
     findAll prisma emptyDto =
     (await count <- professor_count prisma emptyWhere;;
      await professors <-
        professor_findMany prisma
          {| fm_where := emptyWhere; fm_skip := 0; fm_take := 20;
             fm_include := listInclude;
             fm_orderBy := {| ob_averageRating := desc |} |};;
      await data <- map_result mapToProfessorResponse professors;;
      Ok {| data := data;
            meta := {| total := count; meta_page := 1;
                       lastPage := Math_ceil_div count 20;
                       meta_limit := 20 |} |})) /\
  exists resp,
    findAll (memoryPrisma db) emptyDto = Ok resp /\
    data resp =
      map summaryOf (firstn 20 (order_professors {| ob_averageRating := desc |} db)) /\
    Permutation (order_professors {| ob_averageRating := desc |} db) db /\
    StronglySorted (fun a b => (pr_averageRating b <= pr_averageRating a)%Q)
      (data resp) /\
    (List.length (data resp) <= 20)%nat /\
    total (meta resp) = Z.of_nat (List.length db) /\
    meta_page (meta resp) = 1 /\
    meta_limit (meta resp) = 20.
Proof.
  assert (Hall : forall row, matches_where (findAll_where emptyDto) row = true)
    by reflexivity.
  split; [reflexivity|]. split; [exact Hall|]. split; [reflexivity|].
  eexists. split; [apply findAll_memory_empty|].
  cbn [data meta total meta_page meta_limit].
  split; [reflexivity|].
  split; [symmetry; apply sort_by_perm|].
  split; [|split; [|split; [reflexivity|split; reflexivity]]].
  - apply StronglySorted_map. apply StronglySorted_firstn.
    eapply StronglySorted_impl; [|apply (order_professors_sorted desc)].
    intros a b Hab. cbn in Hab |- *. now apply Qle_bool_iff.
  - rewrite length_map. apply firstn_le_length.
Qed.

(** ** Pages beyond the last *)




(** Page 5 of 2 over three professors: an empty page, total 3, last
    page 2. *)
Example findAll_page_5_of_2 :
  findAll (memoryPrisma snapshot) (with_window (Some 5) (Some 2) emptyDto) =
  Ok {| data := [];
        meta := {| total := 3; meta_page := 5; lastPage := JsInt 2;
                   meta_limit := 2 |} |}.
Proof. reflexivity. Qed.

(** ** The response mappers and missing relations *)

(** Both queries of the service include the universities and the
    faculties, so the records the mappers receive have both arrays. *)
Lemma load_universities_faculties (row : ProfessorRow) :
  (p_universities (load listInclude row) = Some (row_universities row) /\
   p_faculties (load listInclude row) = Some (row_faculties row)) /\
  (p_universities (load detailInclude row) = Some (row_universities row) /\
   p_faculties (load detailInclude row) = Some (row_faculties row)).
Proof. repeat split. Qed.

(** Outside what the queries return: on a hand-built record whose
    universities array is missing, both mappers throw a TypeError. *)
Lemma mappers_throw_without_universities :
  p_universities professorWithoutUniversities = None /\
  mapToProfessorResponse professorWithoutUniversities = Err TypeError /\
  mapToProfessorDetailResponse professorWithoutUniversities = Err TypeError.
Proof. repeat split. Qed.

(** C8.  Every record the two queries of the service fetch carries its
    universities and faculties arrays, whatever the store; and for every
    professor record that carries them, both mappers succeed; the summary
    carries the universities and faculties (it has no courses, tags or
    reviews), and in the detail DTO each of courses, tags and reviews is
    the projection of the array when it is present and the empty sequence
    when it is missing. *)
Theorem mappers_missing_optional_relations :
  (forall sem row,
     (p_universities (load_sem sem listInclude row) =
        Some (row_universities row) /\
      p_faculties (load_sem sem listInclude row) = Some (row_faculties row) /\
      p_courses (load_sem sem listInclude row) = None /\
      p_tags (load_sem sem listInclude row) = None /\
      p_reviews (load_sem sem listInclude row) = None) /\
     (p_universities (load_sem sem detailInclude row) =
        Some (row_universities row) /\
      p_faculties (load_sem sem detailInclude row) =
        Some (row_faculties row))) /\
  (forall (p : ProfessorWithRelations)
          (us : list UniversityRelation) (fs : list FacultyRelation),
     p_universities p = Some us ->
     p_faculties p = Some fs ->
     (exists r,
        mapToProfessorResponse p = Ok r /\
        pr_universities r = map universityDto us /\
        pr_faculties r = map facultyDto fs) /\
     (exists d,
        mapToProfessorDetailResponse p = Ok d /\
        pd_universities d = map universityDto us /\
        pd_faculties d = map facultyDto fs /\
        (forall cs, p_courses p = Some cs -> pd_courses d = map courseDto cs) /\
        (forall ts, p_tags p = Some ts -> pd_tags d = map tagDto ts) /\
        (forall rs, p_reviews p = Some rs -> pd_reviews d = map reviewDto rs) /\
        (p_courses p = None -> pd_courses d = []) /\
        (p_tags p = None -> pd_tags d = []) /\
        (p_reviews p = None -> pd_reviews d = []))).
Proof.
  split; [intros sem row; repeat split|].
  intros p us fs Hus Hfs. split.
  - unfold mapToProfessorResponse. rewrite Hus, Hfs. cbn [array_map bind].
    eexists. repeat split.
  - unfold mapToProfessorDetailResponse. rewrite Hus, Hfs.
    cbn [array_map bind]. eexists. split; [reflexivity|].
    cbn [pd_universities pd_faculties pd_courses pd_tags pd_reviews].
    repeat split; try (intros x Hx; rewrite Hx; reflexivity);
      intros Hx; rewrite Hx; reflexivity.
Qed.

Lemma mappers_missing_optional_relations_witness :
  p_universities professorFromList = Some (row_universities professorP) /\
  p_faculties professorFromList = Some [] /\
  (exists r,
     mapToProfessorResponse professorFromList = Ok r /\
     pr_universities r = map universityDto (row_universities professorP) /\
     pr_faculties r = map facultyDto []) /\
  (exists d,
     mapToProfessorDetailResponse professorFromList = Ok d /\
     pd_universities d = map universityDto (row_universities professorP) /\
     pd_faculties d = map facultyDto [] /\
     (forall cs, p_courses professorFromList = Some cs ->
                 pd_courses d = map courseDto cs) /\
     (forall ts, p_tags professorFromList = Some ts ->
                 pd_tags d = map tagDto ts) /\
     (forall rs, p_reviews professorFromList = Some rs ->
                 pd_reviews d = map reviewDto rs) /\
     (p_courses professorFromList = None -> pd_courses d = []) /\
     (p_tags professorFromList = None -> pd_tags d = []) /\
     (p_reviews professorFromList = None -> pd_reviews d = [])).
Proof.
  split; [reflexivity|]. split; [reflexivity|].
  apply (proj2 mappers_missing_optional_relations professorFromList
           (row_universities professorP) []); reflexivity.
Defined.

(** ** Falsy criteria *)

Lemma findAll_ext (prisma : PrismaService) (a b : SearchProfessorDto) :
  findAll_where a = findAll_where b ->
  page a = page b -> limit a = limit b ->
  findAll prisma a = findAll prisma b.
Proof.
  intros Hw Hp Hl. unfold findAll. rewrite Hw, Hp, Hl. reflexivity.
Qed.

(** C10.  For every store and every request, [universityId] = 0,
    [facultyId] = 0, [name] = '' and [department] = '' are treated as
    absent: the [where] object, and so the whole search, is the one of the
    same request without the criterion; with 0 as the id no
    relation-existence constraint is set and with the empty string no
    substring constraint is set. *)
Theorem findAll_falsy_criteria_absent
    (prisma : PrismaService) (dto : SearchProfessorDto) :
  (findAll_where (with_universityId (Some 0) dto) =
     findAll_where (with_universityId None dto) /\
   findAll_where (with_facultyId (Some 0) dto) =
     findAll_where (with_facultyId None dto) /\
   findAll_where (with_name (Some "") dto) =
     findAll_where (with_name None dto) /\
   findAll_where (with_department (Some "") dto) =
     findAll_where (with_department None dto)) /\
  (findAll prisma (with_universityId (Some 0) dto) =
     findAll prisma (with_universityId None dto) /\
   findAll prisma (with_facultyId (Some 0) dto) =
     findAll prisma (with_facultyId None dto) /\
   findAll prisma (with_name (Some "") dto) =
     findAll prisma (with_name None dto) /\
   findAll prisma (with_department (Some "") dto) =
     findAll prisma (with_department None dto)) /\
  (w_universities
     (findAll_where (with_universityId (Some 0) (with_department None dto))) = None /\
   w_universities
     (findAll_where (with_universityId None (with_department (Some "") dto))) = None /\
   w_faculties (findAll_where (with_facultyId (Some 0) dto)) = None /\
   w_fullName (findAll_where (with_name (Some "") dto)) = None).
Proof.
  assert (Hu : findAll_where (with_universityId (Some 0) dto) =
               findAll_where (with_universityId None dto))
    by (where_fields; reflexivity).
  assert (Hf : findAll_where (with_facultyId (Some 0) dto) =
               findAll_where (with_facultyId None dto))
    by (where_fields; reflexivity).
  assert (Hn : findAll_where (with_name (Some "") dto) =
               findAll_where (with_name None dto))
    by (where_fields; reflexivity).
  assert (Hd : findAll_where (with_department (Some "") dto) =
               findAll_where (with_department None dto))
    by (where_fields; reflexivity).
  split; [now repeat split|]. split.
  - repeat split; apply findAll_ext; auto.
  - rewrite !findAll_where_universities, findAll_where_faculties,
      findAll_where_fullName.
    repeat split.
Qed.

(* ================================================================== *)
(** * Further properties of the service *)

(** ** Substrings and case *)

Lemma prefix_occurs (s1 s2 : string) :
  String.prefix s1 s2 = true <-> exists after, s2 = (s1 ++ after)%string.
Proof.
  revert s2. induction s1 as [|a s1 IH]; intros [|b s2]; simpl.
  - split; eauto.
  - split; eauto.
  - split; [discriminate|]. intros [after H]. discriminate.
  - destruct (ascii_dec a b) as [->|Hab].
    + rewrite IH. split; intros [after H]; exists after.
      * now rewrite H.
      * now inversion H.
    + split; [discriminate|]. intros [after H].
      inversion H. congruence.
Qed.

Lemma contains_string_occurs (needle hay : string) :
  contains_string needle hay = true <-> occurs_in needle hay.
Proof.
  unfold occurs_in. induction hay as [|c hay IH]; simpl.
  - rewrite orb_false_r.
    change (match needle with EmptyString => true | String _ _ => false end)
      with (String.prefix needle EmptyString).
    rewrite prefix_occurs. split.
    + intros [after H]. now exists EmptyString, after.
    + intros [[|b before] [after H]]; [now exists after|discriminate].
  - rewrite orb_true_iff, IH.
    change (match needle with
            | EmptyString => true
            | String a s1' =>
                if ascii_dec a c then String.prefix s1' hay else false
            end) with (String.prefix needle (String c hay)).
    rewrite prefix_occurs. split.
    + intros [[after H]|[before [after H]]].
      * now exists EmptyString, after.
      * exists (String c before), after. simpl. now rewrite H.
    + intros [[|b before] [after H]].
      * left. now exists after.
      * right. simpl in H. inversion H. now exists before, after.
Qed.

Lemma lower_ascii_idem (c : ascii) : lower_ascii (lower_ascii c) = lower_ascii c.
Proof. destruct c as [[] [] [] [] [] [] [] []]; reflexivity. Qed.

Lemma lower_idem (s : string) : lower (lower s) = lower s.
Proof.
  induction s as [|c s IH]; simpl; [reflexivity|].
  now rewrite lower_ascii_idem, IH.
Qed.

Lemma lower_truthy (s : string) : truthy_string (lower s) = truthy_string s.
Proof. now destruct s. Qed.

(** ** The predicate, one criterion at a time *)

(** ** The predicate, one criterion at a time *)

Lemma existsb_ext {A : Type} (f g : A -> bool) (l : list A) :
  (forall x, f x = g x) -> existsb f l = existsb g l.
Proof.
  intros H. induction l as [|x t IH]; simpl; [reflexivity|].
  now rewrite H, IH.
Qed.

(** The five conjuncts of the predicate on the [where] object of a
    request. *)
Ltac where_parts :=
  unfold matches_where, matches_where_sem;
  rewrite !findAll_where_fullName, !findAll_where_averageRating,
    !findAll_where_reviewCount, !findAll_where_universities,
    !findAll_where_faculties;
  cbn [with_name with_universityId with_facultyId with_department
       with_ratings with_minReviews with_window
       name universityId facultyId department minRating maxRating
       minReviews page limit].

Lemma matches_where_sem_name (sem : StoreSemantics)
    (dto : SearchProfessorDto) (row : ProfessorRow) :
  matches_where_sem sem (findAll_where dto) row =
  (matches_where_sem sem (findAll_where (with_name None dto)) row &&
   match if_truthy_string (name dto) nameFilter with
   | Some f => matches_string_sem sem f (Some (row_fullName row))
   | None => true
   end)%bool.
Proof. where_parts. cbn [if_truthy_string]. btauto. Qed.

Lemma matches_where_name (dto : SearchProfessorDto) (row : ProfessorRow) :
  matches_where (findAll_where dto) row =
  (matches_where (findAll_where (with_name None dto)) row &&
   match if_truthy_string (name dto) nameFilter with
   | Some f => matches_string f (Some (row_fullName row))
   | None => true
   end)%bool.
Proof. exact (matches_where_sem_name literalSemantics dto row). Qed.

Lemma matches_where_minReviews (dto : SearchProfessorDto) (row : ProfessorRow) :
  matches_where (findAll_where dto) row =
  (matches_where (findAll_where (with_minReviews None dto)) row &&
   match minReviews dto with
   | Some n => n <=? row_reviewCount row
   | None => true
   end)%bool.
Proof.
  where_parts. destruct (minReviews dto); cbn [option_map matches_int if_gte];
    btauto.
Qed.

Lemma matches_where_facultyId (dto : SearchProfessorDto) (row : ProfessorRow) :
  matches_where (findAll_where dto) row =
  (matches_where (findAll_where (with_facultyId None dto)) row &&
   match if_truthy_number (facultyId dto) (fun n => n) with
   | Some n => existsb (fun rel => fr_facultyId rel =? n) (row_faculties row)
   | None => true
   end)%bool.
Proof.
  where_parts. destruct (facultyId dto) as [n|]; cbn [if_truthy_number];
    [destruct (truthy_number n)|]; cbn [pf_some]; try btauto.
  change (matches_faculty_relation {| pfw_facultyId := Some n |})
    with (fun rel => fr_facultyId rel =? n).
  btauto.
Qed.

(** Without a department, [where.universities] is the university-id
    filter. *)
Lemma matches_where_universityId (dto : SearchProfessorDto) (row : ProfessorRow) :
  if_truthy_string (department dto) departmentFilter = None ->
  matches_where (findAll_where dto) row =
  (matches_where (findAll_where (with_universityId None dto)) row &&
   match if_truthy_number (universityId dto) (fun n => n) with
   | Some n => existsb (fun rel => ur_universityId rel =? n) (row_universities row)
   | None => true
   end)%bool.
Proof.
  intros Hd. where_parts. rewrite Hd.
  destruct (universityId dto) as [n|]; cbn [if_truthy_number];
    [destruct (truthy_number n)|]; try btauto.
  cbn [universityIdFilter pu_some].
  rewrite (existsb_ext
             (matches_university_relation
                {| puw_universityId := Some n; puw_university := None |})
             (fun rel => ur_universityId rel =? n) (row_universities row)).
  - btauto.
  - intros rel. unfold matches_university_relation. cbn. apply andb_true_r.
Qed.

(** Without a university id, [where.universities] is the department
    filter. *)
Lemma matches_where_sem_department (sem : StoreSemantics)
    (dto : SearchProfessorDto) (row : ProfessorRow) :
  if_truthy_number (universityId dto) universityIdFilter = None ->
  matches_where_sem sem (findAll_where dto) row =
  (matches_where_sem sem (findAll_where (with_department None dto)) row &&
   match if_truthy_string (department dto) (fun d => d) with
   | Some d =>
       existsb
         (fun rel =>
            matches_string_sem sem (nameFilter d)
              (u_department (ur_university rel)))
         (row_universities row)
   | None => true
   end)%bool.
Proof.
  intros Hu. where_parts. rewrite Hu.
  destruct (department dto) as [d|]; cbn [if_truthy_string];
    [destruct (truthy_string d)|]; try btauto.
  cbn [departmentFilter pu_some].
  rewrite (existsb_ext
             (matches_university_relation_sem sem
                {| puw_universityId := None;
                   puw_university :=
                     Some {| uw_department := Some (nameFilter d) |} |})
             (fun rel =>
                matches_string_sem sem (nameFilter d)
                  (u_department (ur_university rel)))
             (row_universities row)).
  - btauto.
  - intros rel. reflexivity.
Qed.

Lemma truthy_string_iff (s : string) : truthy_string s = true <-> s <> "".
Proof. destruct s; simpl; split; congruence. Qed.

Lemma truthy_number_iff (n : Z) : truthy_number n = true <-> n <> 0.
Proof. unfold truthy_number. rewrite negb_true_iff, Z.eqb_neq. tauto. Qed.

(** X1.  Whatever the store's reading of [contains] (wildcards, case
    folding), a non-empty [name] keeps exactly the professors that
    satisfy the rest of the request and whose full name the store's
    case-insensitive [contains] accepts for that name. *)
Theorem findAll_name_contains
    (sem : StoreSemantics) (dto : SearchProfessorDto) (row : ProfessorRow)
    (n : string) :
  name dto = Some n ->
  truthy_string n = true ->
  (matches_where_sem sem (findAll_where dto) row = true <->
   matches_where_sem sem (findAll_where (with_name None dto)) row = true /\
   sem_contains sem mode_insensitive n (row_fullName row) = true).
Proof.
  intros Hn Ht.
  rewrite matches_where_sem_name, andb_true_iff, Hn.
  cbn [if_truthy_string]. rewrite Ht. reflexivity.
Qed.

Lemma findAll_name_contains_witness :
  let dto := with_name (Some "GARCIA") emptyDto in
  name dto = Some "GARCIA" /\
  truthy_string "GARCIA" = true /\
  (matches_where_sem literalSemantics (findAll_where dto) professorP = true <->
   matches_where_sem literalSemantics (findAll_where (with_name None dto))
     professorP = true /\
   sem_contains literalSemantics mode_insensitive "GARCIA"
     (row_fullName professorP) = true).
Proof.
  split; [reflexivity|]. split; [reflexivity|].
  apply (findAll_name_contains literalSemantics
           (with_name (Some "GARCIA") emptyDto) professorP "GARCIA");
    reflexivity.
Defined.

(** Two requests with the same page, limit and integer criteria, the same
    matching rows and the same order of rows have the same result. *)
Lemma findAll_snapshot_congr (sem : StoreSemantics) (db : list ProfessorRow)
    (a b : SearchProfessorDto) :
  store_accepts sem (findAll_where a) = store_accepts sem (findAll_where b) ->
  page a = page b -> limit a = limit b ->
  matched_sem sem db a = matched_sem sem db b ->
  sem_order sem (findAll_args a) (matched_sem sem db b) =
    sem_order sem (findAll_args b) (matched_sem sem db b) ->
  findAll (snapshotPrisma sem db) a = findAll (snapshotPrisma sem db) b.
Proof.
  intros Hr Hp Hl Hm Ho. rewrite !findAll_snapshot_cases.
  unfold skipOf, pageOf, limitOf. rewrite Hr, Hp, Hl, Hm, Ho. reflexivity.
Qed.

(** X2.  Searching by name or by department ignores the case of ASCII
    letters: two names (two departments) with the same lower-casing give
    the same search result over a snapshot. *)
Theorem findAll_case_insensitive
    (db : list ProfessorRow) (dto : SearchProfessorDto) (s1 s2 : string) :
  lower s1 = lower s2 ->
  findAll (memoryPrisma db) (with_name (Some s1) dto) =
    findAll (memoryPrisma db) (with_name (Some s2) dto) /\
  findAll (memoryPrisma db) (with_department (Some s1) dto) =
    findAll (memoryPrisma db) (with_department (Some s2) dto).
Proof.
  intros Hl.
  assert (Ht : truthy_string s1 = truthy_string s2)
    by (rewrite <- (lower_truthy s1), <- (lower_truthy s2); now rewrite Hl).
  split; unfold memoryPrisma; apply findAll_snapshot_congr;
    try reflexivity.
  - unfold store_accepts, where_in_range.
    rewrite !findAll_where_reviewCount, !findAll_where_universities,
      !findAll_where_faculties. reflexivity.
  - unfold matched_sem. apply filter_ext. intros row.
    rewrite (matches_where_sem_name literalSemantics (with_name (Some s1) dto)),
      (matches_where_sem_name literalSemantics (with_name (Some s2) dto)).
    cbn [with_name name universityId facultyId department minRating
         maxRating minReviews page limit if_truthy_string].
    rewrite Ht. destruct (truthy_string s2); [|reflexivity].
    cbn [matches_string_sem literalSemantics sem_contains nameFilter
         sf_mode sf_contains].
    now rewrite Hl.
  - unfold store_accepts, where_in_range.
    rewrite !findAll_where_reviewCount, !findAll_where_universities,
      !findAll_where_faculties.
    cbn [with_department name universityId facultyId department minRating
         maxRating minReviews page limit if_truthy_string].
    rewrite Ht. destruct (truthy_string s2); reflexivity.
  - unfold matched_sem. apply filter_ext. intros row. where_parts.
    cbn [if_truthy_string]. rewrite Ht.
    destruct (truthy_string s2); [|reflexivity].
    cbn [departmentFilter pu_some].
    rewrite (existsb_ext
               (matches_university_relation_sem literalSemantics
                  {| puw_universityId := None;
                     puw_university :=
                       Some {| uw_department := Some (nameFilter s1) |} |})
               (matches_university_relation_sem literalSemantics
                  {| puw_universityId := None;
                     puw_university :=
                       Some {| uw_department := Some (nameFilter s2) |} |})
               (row_universities row)); [reflexivity|].
    intros rel. unfold matches_university_relation_sem, matches_university_sem,
      matches_string_sem. cbn. now rewrite Hl.
Qed.

Lemma findAll_case_insensitive_witness :
  lower "PHYSics" = lower "physICS" /\
  findAll (memoryPrisma snapshot) (with_name (Some "PHYSics") emptyDto) =
    findAll (memoryPrisma snapshot) (with_name (Some "physICS") emptyDto) /\
  findAll (memoryPrisma snapshot) (with_department (Some "PHYSics") emptyDto) =
    findAll (memoryPrisma snapshot) (with_department (Some "physICS") emptyDto).
Proof.
  split; [reflexivity|].
  apply (findAll_case_insensitive snapshot emptyDto "PHYSics" "physICS").
  reflexivity.
Defined.

(** X3.  [minReviews] keeps exactly the professors that satisfy the rest
    of the request and have at least that many reviews; unlike the ids, a
    [minReviews] of 0 is kept in the [where] object. *)
Theorem findAll_minReviews (dto : SearchProfessorDto) (row : ProfessorRow) :
  (matches_where (findAll_where dto) row = true <->
   matches_where (findAll_where (with_minReviews None dto)) row = true /\
   forall n, minReviews dto = Some n -> n <= row_reviewCount row) /\
  w_reviewCount (findAll_where (with_minReviews (Some 0) dto)) =
    Some {| if_gte := Some 0 |}.
Proof.
  split.
  - rewrite matches_where_minReviews, andb_true_iff.
    destruct (minReviews dto) as [n|].
    + rewrite Z.leb_le. split; intros [H1 H2]; split; auto.
      intros m Hm. now inversion Hm; subst.
    + split; intros [H1 H2]; split; auto. discriminate.
  - rewrite findAll_where_reviewCount. reflexivity.
Qed.

(** X4.  A non-zero [facultyId] keeps exactly the professors that satisfy
    the rest of the request and have a joined faculty row with that
    id. *)
Theorem findAll_facultyId (dto : SearchProfessorDto) (row : ProfessorRow) :
  matches_where (findAll_where dto) row = true <->
  matches_where (findAll_where (with_facultyId None dto)) row = true /\
  forall i, facultyId dto = Some i -> i <> 0 ->
    exists rel, In rel (row_faculties row) /\ fr_facultyId rel = i.
Proof.
  rewrite matches_where_facultyId, andb_true_iff.
  destruct (facultyId dto) as [n|]; cbn [if_truthy_number].
  - destruct (truthy_number n) eqn:Hn.
    + rewrite existsb_exists. apply truthy_number_iff in Hn.
      split; intros [H1 H2]; split; auto.
      * intros i Hi _. inversion Hi; subst.
        destruct H2 as [rel [Hin Hid]]. exists rel. split; [exact Hin|lia].
      * destruct (H2 n eq_refl Hn) as [rel [Hin Hid]].
        exists rel. split; [exact Hin|lia].
    + assert (n = 0) by (unfold truthy_number in Hn; lia).
      split; intros [H1 H2]; split; auto.
      intros i Hi Hi0. inversion Hi; subst. contradiction.
  - split; intros [H1 H2]; split; auto. discriminate.
Qed.

(** X5.  When no department is supplied (or an empty one), a non-zero
    [universityId] keeps exactly the professors that satisfy the rest of
    the request and have a joined university row with that id. *)
Theorem findAll_universityId
    (dto : SearchProfessorDto) (row : ProfessorRow) :
  department dto = None \/ department dto = Some "" ->
  (matches_where (findAll_where dto) row = true <->
   matches_where (findAll_where (with_universityId None dto)) row = true /\
   forall U, universityId dto = Some U -> U <> 0 ->
     exists rel, In rel (row_universities row) /\ ur_universityId rel = U).
Proof.
  intros Hd.
  rewrite matches_where_universityId, andb_true_iff
    by (destruct Hd as [-> | ->]; reflexivity).
  destruct (universityId dto) as [n|]; cbn [if_truthy_number].
  - destruct (truthy_number n) eqn:Hn.
    + rewrite existsb_exists. apply truthy_number_iff in Hn.
      split; intros [H1 H2]; split; auto.
      * intros i Hi _. inversion Hi; subst.
        destruct H2 as [rel [Hin Hid]]. exists rel. split; [exact Hin|lia].
      * destruct (H2 n eq_refl Hn) as [rel [Hin Hid]].
        exists rel. split; [exact Hin|lia].
    + assert (n = 0) by (unfold truthy_number in Hn; lia).
      split; intros [H1 H2]; split; auto.
      intros i Hi Hi0. inversion Hi; subst. contradiction.
  - split; intros [H1 H2]; split; auto. discriminate.
Qed.

Lemma findAll_universityId_witness :
  let dto := with_universityId (Some 2) emptyDto in
  (department dto = None \/ department dto = Some "") /\
  (matches_where (findAll_where dto) professorP = true <->
   matches_where (findAll_where (with_universityId None dto)) professorP = true /\
   forall U, universityId dto = Some U -> U <> 0 ->
     exists rel, In rel (row_universities professorP) /\ ur_universityId rel = U).
Proof.
  split; [left; reflexivity|].
  apply (findAll_universityId (with_universityId (Some 2) emptyDto) professorP).
  left; reflexivity.
Defined.

(** X6.  Whatever the store's reading of [contains], when no university
    id is supplied (or 0), a non-empty [department] keeps exactly the
    professors that satisfy the rest of the request and have a joined
    university row whose university has a department that the store's
    case-insensitive [contains] accepts for that string; a university
    without department never counts. *)
Theorem findAll_department
    (sem : StoreSemantics) (dto : SearchProfessorDto) (row : ProfessorRow) :
  universityId dto = None \/ universityId dto = Some 0 ->
  (matches_where_sem sem (findAll_where dto) row = true <->
   matches_where_sem sem (findAll_where (with_department None dto)) row
     = true /\
   forall d, department dto = Some d -> d <> "" ->
     exists rel dep,
       In rel (row_universities row) /\
       u_department (ur_university rel) = Some dep /\
       sem_contains sem mode_insensitive d dep = true).
Proof.
  intros Hu.
  rewrite matches_where_sem_department, andb_true_iff
    by (destruct Hu as [-> | ->]; reflexivity).
  destruct (department dto) as [d|]; cbn [if_truthy_string].
  - destruct (truthy_string d) eqn:Hd.
    + rewrite existsb_exists. apply truthy_string_iff in Hd.
      split; intros [H1 H2]; split; auto.
      * intros d' Hd' _. injection Hd' as <-.
        destruct H2 as [rel [Hin Hm]].
        destruct (u_department (ur_university rel)) as [dep|] eqn:Hdep;
          [|discriminate].
        now exists rel, dep.
      * destruct (H2 d eq_refl Hd) as [rel [dep [Hin [Hdep Hocc]]]].
        exists rel. split; [exact Hin|]. now rewrite Hdep.
    + assert (d = "") by (now destruct d).
      split; intros [H1 H2]; split; auto.
      intros d' Hd' Hne. injection Hd' as <-. contradiction.
  - split; intros [H1 H2]; split; auto. discriminate.
Qed.

Lemma findAll_department_witness :
  let dto := with_department (Some "phys") emptyDto in
  (universityId dto = None \/ universityId dto = Some 0) /\
  (matches_where_sem literalSemantics (findAll_where dto) professorP = true <->
   matches_where_sem literalSemantics (findAll_where (with_department None dto))
     professorP = true /\
   forall d, department dto = Some d -> d <> "" ->
     exists rel dep,
       In rel (row_universities professorP) /\
       u_department (ur_university rel) = Some dep /\
       sem_contains literalSemantics mode_insensitive d dep = true).
Proof.
  split; [left; reflexivity|].
  apply (findAll_department literalSemantics
           (with_department (Some "phys") emptyDto) professorP).
  left; reflexivity.
Defined.

(** ** Rating bounds the wrong way round *)

(** ** Rating bounds the wrong way round *)

Lemma filter_none {A : Type} (f : A -> bool) (l : list A) :
  (forall x, f x = false) -> filter f l = [].
Proof.
  intros Hf. induction l as [|x t IH]; simpl; [reflexivity|].
  now rewrite Hf.
Qed.

Lemma window_nil {A : Type} (skip take : Z) : window skip take (@nil A) = [].
Proof.
  unfold window. destruct (0 <=? take); simpl;
    rewrite skipn_nil, firstn_nil; reflexivity.
Qed.

(** X7.  When both rating bounds are supplied and maxRating is below
    minRating, the service does not reject the request: for every
    reading of [contains] and every lawful order, every validated search
    that the store accepts succeeds over a snapshot with an empty
    page, total 0 and lastPage 0. *)
Theorem findAll_inverted_rating_bounds
    (sem : StoreSemantics) (db : list ProfessorRow) (dto : SearchProfessorDto)
    (lo hi : Q) :
  StoreLaws sem ->
  validate dto = true ->
  accepted sem dto = true ->
  minRating dto = Some lo ->
  maxRating dto = Some hi ->
  (hi < lo)%Q ->
  findAll (snapshotPrisma sem db) dto =
  Ok {| data := [];
        meta := {| total := 0; meta_page := pageOf dto;
                   lastPage := JsInt 0; meta_limit := limitOf dto |} |}.
Proof.
  intros Hlaws Hv Hf Hlo Hhi Hlt.
  pose proof (validate_window dto Hv) as [Hpg Hlm].
  assert (Hm : matched_sem sem db dto = []).
  { unfold matched_sem. apply filter_none. intros row.
    rewrite matches_where_sem_ratings, Hlo, Hhi.
    apply andb_false_iff. right.
    unfold rating_boundsb. simpl.
    destruct (Qle_bool lo (row_averageRating row)) eqn:H1; [|reflexivity].
    destruct (Qle_bool (row_averageRating row) hi) eqn:H2; [|reflexivity].
    apply Qle_bool_iff in H1, H2.
    exfalso. apply (Qlt_irrefl lo).
    eapply Qle_lt_trans; [eapply Qle_trans; eauto|exact Hlt]. }
  rewrite findAll_snapshot by assumption. rewrite Hm.
  rewrite (Permutation_nil
             (Permutation_sym (order_permutation sem Hlaws (findAll_args dto) []))).
  cbn [List.length Z.of_nat].
  rewrite window_nil, Math_ceil_div_pos by lia.
  reflexivity.
Qed.

Lemma findAll_inverted_rating_bounds_witness :
  let dto := with_ratings (Some (4 # 1)) (Some (2 # 1)) emptyDto in
  StoreLaws literalSemantics /\
  validate dto = true /\
  accepted literalSemantics dto = true /\
  minRating dto = Some (4 # 1) /\
  maxRating dto = Some (2 # 1) /\
  (2 # 1 < 4 # 1)%Q /\
  findAll (snapshotPrisma literalSemantics snapshot) dto =
  Ok {| data := [];
        meta := {| total := 0; meta_page := pageOf dto;
                   lastPage := JsInt 0; meta_limit := limitOf dto |} |}.
Proof.
  split; [exact literalSemantics_laws|].
  split; [reflexivity|]. split; [reflexivity|]. split; [reflexivity|].
  split; [reflexivity|]. split; [reflexivity|].
  apply (findAll_inverted_rating_bounds literalSemantics snapshot
           (with_ratings (Some (4 # 1)) (Some (2 # 1)) emptyDto)
           (4 # 1) (2 # 1)); try reflexivity.
  exact literalSemantics_laws.
Defined.

(** ** The size and the order of a page *)

(** ** The size and the order of a page *)

Lemma StronglySorted_skipn {A : Type} (R : A -> A -> Prop) (n : nat)
    (l : list A) :
  StronglySorted R l -> StronglySorted R (skipn n l).
Proof.
  intros H. revert n.
  induction H as [|x t Ht IH Hx]; intros [|n]; simpl; try constructor; auto.
Qed.

Lemma window_length {A : Type} (skip take : Z) (l : list A) :
  0 <= skip -> 0 <= take ->
  Z.of_nat (List.length (window skip take l)) =
  Z.min take (Z.max 0 (Z.of_nat (List.length l) - skip)).
Proof.
  intros Hs Ht. unfold window.
  destruct (Z.leb_spec 0 take) as [_|H]; [|lia].
  rewrite length_firstn, length_skipn. lia.
Qed.

(** X8.  For every reading of [contains] and every lawful order, every
    validated search that the store accepts, over a snapshot whose
    size a double holds exactly, returns
    min(limit, max(0, total - offset)) professors, so never more than
    limit, and its page is empty exactly when the page number exceeds
    lastPage. *)
Theorem findAll_page_length
    (sem : StoreSemantics) (db : list ProfessorRow) (dto : SearchProfessorDto) :
  StoreLaws sem ->
  validate dto = true ->
  accepted sem dto = true ->
  Z.of_nat (List.length db) <= MAX_SAFE_INTEGER ->
  exists resp n,
    findAll (snapshotPrisma sem db) dto = Ok resp /\
    lastPage (meta resp) = JsInt n /\
    Z.of_nat (List.length (data resp)) =
      Z.min (limitOf dto)
        (Z.max 0 (total (meta resp) - (pageOf dto - 1) * limitOf dto)) /\
    (data resp = [] <-> n < pageOf dto).
Proof.
  intros Hlaws Hv Hf _. pose proof (validate_window dto Hv) as [Hpg Hlm].
  pose proof (ceil_div_bounds (Z.of_nat (List.length (matched_sem sem db dto)))
                (limitOf dto) ltac:(lia)) as Hceil.
  eexists.
  exists (- ((- Z.of_nat (List.length (matched_sem sem db dto))) / limitOf dto)).
  split; [now apply findAll_snapshot|].
  cbn [data meta total lastPage].
  split; [apply Math_ceil_div_pos; lia|].
  assert (Hlen :
    Z.of_nat (List.length
      (map summaryOf
         (window ((pageOf dto - 1) * limitOf dto) (limitOf dto)
            (sem_order sem (findAll_args dto) (matched_sem sem db dto))))) =
    Z.min (limitOf dto)
      (Z.max 0 (Z.of_nat (List.length (matched_sem sem db dto))
                - (pageOf dto - 1) * limitOf dto))).
  { rewrite length_map, window_length by nia.
    now rewrite (Permutation_length (order_permutation sem Hlaws _ _)). }
  split; [exact Hlen|].
  split.
  - intros Hnil. rewrite Hnil in Hlen. cbn [List.length Z.of_nat] in Hlen. nia.
  - intros Hn.
    destruct (map summaryOf _) as [|x t]; [reflexivity|].
    cbn [List.length] in Hlen. nia.
Qed.

Lemma findAll_page_length_witness :
  let dto := with_window (Some 2) (Some 2) emptyDto in
  StoreLaws literalSemantics /\
  validate dto = true /\ accepted literalSemantics dto = true /\
  Z.of_nat (List.length snapshot) <= MAX_SAFE_INTEGER /\
  exists resp n,
    findAll (snapshotPrisma literalSemantics snapshot) dto = Ok resp /\
    lastPage (meta resp) = JsInt n /\
    Z.of_nat (List.length (data resp)) =
      Z.min (limitOf dto)
        (Z.max 0 (total (meta resp) - (pageOf dto - 1) * limitOf dto)) /\
    (data resp = [] <-> n < pageOf dto).
Proof.
  assert (Hsize : Z.of_nat (List.length snapshot) <= MAX_SAFE_INTEGER)
    by (vm_compute; discriminate).
  split; [exact literalSemantics_laws|].
  split; [reflexivity|]. split; [reflexivity|]. split; [exact Hsize|].
  apply (findAll_page_length literalSemantics snapshot
           (with_window (Some 2) (Some 2) emptyDto) literalSemantics_laws);
    [reflexivity | reflexivity | exact Hsize].
Defined.

(** X10.  For every reading of [contains] and every lawful order, every
    page of a validated search that the store accepts is, over a
    snapshot, in descending order of averageRating, and each of its
    entries is the summary of a professor of the snapshot that satisfies
    the predicate of the search as the store reads it. *)
Theorem findAll_page_sorted
    (sem : StoreSemantics) (db : list ProfessorRow) (dto : SearchProfessorDto) :
  StoreLaws sem ->
  validate dto = true ->
  accepted sem dto = true ->
  exists resp,
    findAll (snapshotPrisma sem db) dto = Ok resp /\
    StronglySorted (fun a b => (pr_averageRating b <= pr_averageRating a)%Q)
      (data resp) /\
    forall s, In s (data resp) ->
      exists row,
        In row db /\ matches_where_sem sem (findAll_where dto) row = true /\
        s = summaryOf row.
Proof.
  intros Hlaws Hv Hf. pose proof (validate_window dto Hv) as [Hpg Hlm].
  eexists. split; [now apply findAll_snapshot|].
  cbn [data]. split.
  - apply StronglySorted_map. unfold window.
    destruct (Z.leb_spec 0 (limitOf dto)) as [_|H]; [|lia].
    apply StronglySorted_firstn, StronglySorted_skipn.
    eapply StronglySorted_impl;
      [|apply (order_sorted sem Hlaws (findAll_args dto))].
    intros a b Hab. cbn in Hab |- *. now apply Qle_bool_iff.
  - intros s Hs. now apply In_page in Hs.
Qed.

Lemma findAll_page_sorted_witness :
  let dto := with_window (Some 1) (Some 2) emptyDto in
  StoreLaws literalSemantics /\
  validate dto = true /\ accepted literalSemantics dto = true /\
  exists resp,
    findAll (snapshotPrisma literalSemantics snapshot) dto = Ok resp /\
    StronglySorted (fun a b => (pr_averageRating b <= pr_averageRating a)%Q)
      (data resp) /\
    forall s, In s (data resp) ->
      exists row,
        In row snapshot /\
        matches_where_sem literalSemantics (findAll_where dto) row = true /\
        s = summaryOf row.
Proof.
  split; [exact literalSemantics_laws|].
  split; [reflexivity|]. split; [reflexivity|].
  apply (findAll_page_sorted literalSemantics snapshot
           (with_window (Some 1) (Some 2) emptyDto) literalSemantics_laws);
    reflexivity.
Defined.

(** ** The pages of one search, put together *)

(** ** The pages of one search, put together *)

Lemma firstn_plus {A : Type} (a b : nat) (l : list A) :
  firstn (a + b) l = (firstn a l ++ firstn b (skipn a l))%list.
Proof.
  revert l. induction a as [|a IH]; intros l; simpl.
  - reflexivity.
  - destruct l as [|x t]; simpl.
    + now rewrite firstn_nil.
    + now rewrite IH.
Qed.

Lemma pages_firstn {A : Type} (size n : nat) (l : list A) :
  flat_map (fun k => firstn size (skipn (k * size) l)) (seq 0 n) =
  firstn (n * size) l.
Proof.
  induction n as [|n IH].
  - reflexivity.
  - rewrite seq_S, flat_map_app, IH. cbn [flat_map].
    rewrite app_nil_r, Nat.add_0_l.
    replace (S n * size)%nat with (n * size + size)%nat by lia.
    now rewrite firstn_plus.
Qed.

Lemma flat_map_map_out {A B C : Type} (f : B -> C) (g : A -> list B)
    (l : list A) :
  flat_map (fun k => map f (g k)) l = map f (flat_map g l).
Proof.
  induction l as [|x t IH]; simpl; [reflexivity|].
  now rewrite IH, map_app.
Qed.

(** Two sorted arrangements of rows with pairwise different ratings are
    the same list. *)
Lemma sorted_distinct_unique (o : SortOrder) (l1 l2 : list ProfessorRow) :
  Permutation l1 l2 ->
  distinct_ratings l1 ->
  StronglySorted (fun x y => rating_leb o x y = true) l1 ->
  StronglySorted (fun x y => rating_leb o x y = true) l2 ->
  l1 = l2.
Proof.
  revert l2. induction l1 as [|x t1 IH]; intros l2 Hperm Hd Hs1 Hs2.
  - apply Permutation_nil in Hperm. now subst.
  - destruct l2 as [|y t2].
    + apply Permutation_sym, Permutation_nil in Hperm. discriminate.
    + inversion Hs1 as [|? ? Hs1' Hx]; subst.
      inversion Hs2 as [|? ? Hs2' Hy]; subst.
      rewrite Forall_forall in Hx, Hy.
      assert (Hxy : x = y).
      { assert (Hyin : In y (x :: t1))
          by (eapply Permutation_in; [symmetry; exact Hperm|now left]).
        assert (Hxin : In x (y :: t2))
          by (eapply Permutation_in; [exact Hperm|now left]).
        destruct Hyin as [->|Hyt]; [reflexivity|].
        destruct Hxin as [<-|Hxt]; [reflexivity|].
        apply Hd; [now left|now right|].
        pose proof (Hx y Hyt) as H1. pose proof (Hy x Hxt) as H2.
        destruct o; cbn in H1, H2; apply Qle_bool_iff in H1, H2;
          now apply Qle_antisym. }
      subst y. f_equal. apply IH.
      * now apply Permutation_cons_inv in Hperm.
      * intros a b Ha Hb. apply Hd; now right.
      * exact Hs1'.
      * exact Hs2'.
Qed.

Lemma pageData_window (sem : StoreSemantics) (db : list ProfessorRow)
    (dto : SearchProfessorDto) (lm : Z) (n k : nat) :
  StoreLaws sem ->
  distinct_ratings (matched_sem sem db dto) ->
  store_accepts sem (findAll_where dto) = true ->
  1 <= lm -> Z.of_nat n * lm <= 2147483647 -> (k < n)%nat ->
  pageData sem db dto lm k =
  map summaryOf
    (firstn (Z.to_nat lm)
       (skipn (k * Z.to_nat lm)
          (sem_order sem (findAll_args dto) (matched_sem sem db dto)))).
Proof.
  intros Hlaws Hd Hr Hlm Hn Hk. unfold pageData.
  rewrite findAll_snapshot_cases, findAll_where_window, Hr.
  unfold matched_sem. rewrite findAll_where_window.
  fold (matched_sem sem db dto).
  unfold skipOf. cbn [pageOf limitOf with_window page limit].
  rewrite js_offset_exact
    by (change (2 ^ 53) with 9007199254740992; nia).
  destruct (Z.ltb_spec ((Z.of_nat k + 1 - 1) * lm) 0) as [H|_]; [nia|].
  cbn [data]. unfold window.
  destruct (Z.leb_spec 0 lm) as [_|H]; [|lia].
  replace (Z.to_nat ((Z.of_nat k + 1 - 1) * lm)) with (k * Z.to_nat lm)%nat
    by (rewrite Z.add_simpl_r, Z2Nat.inj_mul, Nat2Z.id by lia; reflexivity).
  f_equal. f_equal. f_equal.
  apply (sorted_distinct_unique desc).
  - rewrite (order_permutation sem Hlaws).
    symmetry. apply (order_permutation sem Hlaws).
  - intros a b Ha Hb. apply Hd;
      eapply Permutation_in; try apply (order_permutation sem Hlaws); eassumption.
  - apply (order_sorted sem Hlaws
             (findAll_args (with_window (Some (Z.of_nat k + 1)) (Some lm) dto))).
  - apply (order_sorted sem Hlaws (findAll_args dto)).
Qed.

Lemma flat_map_ext_seq {A : Type} (f g : nat -> list A) (n : nat) :
  (forall k, (k < n)%nat -> f k = g k) ->
  flat_map f (seq 0 n) = flat_map g (seq 0 n).
Proof.
  intros H. induction n as [|n IH]; [reflexivity|].
  rewrite seq_S, !flat_map_app, IH by (intros; apply H; lia).
  cbn [flat_map]. rewrite Nat.add_0_l, (H n) by lia. reflexivity.
Qed.

(** X9.  Over a snapshot in which the professors that satisfy the
    predicate have pairwise different ratings, for every reading of
    [contains], every lawful order and every page size of at least 1
    (criteria and offsets within 32 bits), the pages 1, ..., n of one
    search, put one after the other, are the summaries of all the
    professors that satisfy the predicate, each once, in descending order
    of averageRating, as soon as n pages hold the total. *)
Theorem findAll_pages_partition
    (sem : StoreSemantics) (db : list ProfessorRow) (dto : SearchProfessorDto)
    (lm : Z) (n : nat) :
  StoreLaws sem ->
  distinct_ratings (matched_sem sem db dto) ->
  store_accepts sem (findAll_where dto) = true ->
  1 <= lm ->
  Z.of_nat n * lm <= 2147483647 ->
  Z.of_nat (List.length (matched_sem sem db dto)) <= Z.of_nat n * lm ->
  exists ordered,
    flat_map (pageData sem db dto lm) (seq 0 n) = map summaryOf ordered /\
    Permutation ordered
      (filter (matches_where_sem sem (findAll_where dto)) db) /\
    StronglySorted
      (fun a b => (row_averageRating b <= row_averageRating a)%Q) ordered.
Proof.
  intros Hlaws Hd Hr Hlm Hmax Hn.
  exists (sem_order sem (findAll_args dto) (matched_sem sem db dto)).
  split; [|split].
  - rewrite (flat_map_ext_seq _ _ n
               (fun k Hk => pageData_window sem db dto lm n k
                              Hlaws Hd Hr Hlm Hmax Hk)).
    rewrite flat_map_map_out, pages_firstn.
    rewrite firstn_all2; [reflexivity|].
    rewrite (Permutation_length (order_permutation sem Hlaws _ _)). nia.
  - apply (order_permutation sem Hlaws).
  - eapply StronglySorted_impl;
      [|apply (order_sorted sem Hlaws (findAll_args dto))].
    intros a b Hab. cbn in Hab. now apply Qle_bool_iff.
Qed.

Lemma snapshot_distinct_ratings :
  distinct_ratings (matched_sem literalSemantics snapshot emptyDto).
Proof.
  intros a b Ha Hb Heq.
  change (matched_sem literalSemantics snapshot emptyDto) with snapshot in Ha, Hb.
  destruct Ha as [<-|[<-|[<-|[]]]], Hb as [<-|[<-|[<-|[]]]];
    try reflexivity; vm_compute in Heq; discriminate.
Qed.

Lemma findAll_pages_partition_witness :
  StoreLaws literalSemantics /\
  distinct_ratings (matched_sem literalSemantics snapshot emptyDto) /\
  store_accepts literalSemantics (findAll_where emptyDto) = true /\
  1 <= 2 /\
  Z.of_nat 2 * 2 <= 2147483647 /\
  Z.of_nat (List.length (matched_sem literalSemantics snapshot emptyDto))
    <= Z.of_nat 2 * 2 /\
  exists ordered,
    flat_map (pageData literalSemantics snapshot emptyDto 2) (seq 0 2) =
      map summaryOf ordered /\
    Permutation ordered
      (filter (matches_where_sem literalSemantics (findAll_where emptyDto))
         snapshot) /\
    StronglySorted
      (fun a b => (row_averageRating b <= row_averageRating a)%Q) ordered.
Proof.
  split; [exact literalSemantics_laws|].
  split; [exact snapshot_distinct_ratings|].
  split; [reflexivity|]. split; [lia|].
  split; [vm_compute; discriminate|]. split; [vm_compute; discriminate|].
  apply (findAll_pages_partition literalSemantics snapshot emptyDto 2 2
           literalSemantics_laws snapshot_distinct_ratings);
    [reflexivity | lia | vm_compute; discriminate | vm_compute; discriminate].
Defined.

(** ** From a search to a lookup *)

(** ** From a search to a lookup *)

Lemma NoDup_map_In_inj {A B : Type} (f : A -> B) (l : list A) (x y : A) :
  NoDup (map f l) -> In x l -> In y l -> f x = f y -> x = y.
Proof.
  induction l as [|a t IH]; simpl; [contradiction|].
  intros Hnd Hx Hy Hf. inversion Hnd as [|? ? Hnotin Hnd']; subst.
  destruct Hx as [->|Hx], Hy as [->|Hy]; auto.
  - exfalso. apply Hnotin. rewrite Hf. now apply in_map.
  - exfalso. apply Hnotin. rewrite <- Hf. now apply in_map.
Qed.

(** X13.  Over a snapshot whose professor ids are distinct and fit the
    32 bits of the id column, for every reading of [contains] and every
    lawful order, every professor that a search returns can be looked up
    by its id: [findOne] succeeds on it and the id, name, rating, review
    count, universities and faculties of the detail are those of the
    summary. *)
Theorem findAll_then_findOne
    (sem : StoreSemantics) (db : list ProfessorRow) (dto : SearchProfessorDto)
    (resp : PaginatedProfessorsResponseDto) :
  StoreLaws sem ->
  NoDup (map row_id db) ->
  (forall row, In row db -> isInt32 (row_id row) = true) ->
  findAll (snapshotPrisma sem db) dto = Ok resp ->
  forall s, In s (data resp) ->
    exists d,
      findOne (snapshotPrisma sem db) (pr_id s) = Ok d /\
      summaryOfDetail d = s.
Proof.
  intros Hlaws Hnd Hids Hresp s Hs.
  apply findAll_snapshot_Ok in Hresp. destruct Hresp as [_ [_ ->]].
  cbn [data] in Hs.
  destruct (In_page _ _ _ _ _ _ _ Hlaws Hs) as [row [Hrow [_ ->]]].
  rewrite findOne_snapshot. cbn [pr_id summaryOf].
  rewrite (Hids row Hrow).
  destruct (find (fun r => row_id r =? row_id row) db) as [row'|] eqn:Hfind.
  - apply find_some in Hfind. destruct Hfind as [Hin' Hid].
    apply Z.eqb_eq in Hid.
    assert (row' = row) as -> by (eapply NoDup_map_In_inj; eauto).
    eexists. split; reflexivity.
  - apply (find_none _ _ Hfind) in Hrow. apply Z.eqb_neq in Hrow.
    contradiction.
Qed.

Lemma findAll_then_findOne_witness :
  let dto := with_ratings (Some (3 # 1)) None emptyDto in
  let resp :=
    {| data := [summaryOf professorR; summaryOf professorP];
       meta := {| total := 2; meta_page := 1; lastPage := JsInt 1;
                  meta_limit := 20 |} |} in
  StoreLaws literalSemantics /\
  NoDup (map row_id snapshot) /\
  (forall row, In row snapshot -> isInt32 (row_id row) = true) /\
  findAll (snapshotPrisma literalSemantics snapshot) dto = Ok resp /\
  forall s, In s (data resp) ->
    exists d,
      findOne (snapshotPrisma literalSemantics snapshot) (pr_id s) = Ok d /\
      summaryOfDetail d = s.
Proof.
  assert (Hnd : NoDup (map row_id snapshot)).
  { repeat constructor; simpl; intuition lia. }
  assert (Hids : forall row, In row snapshot -> isInt32 (row_id row) = true).
  { intros row [<-|[<-|[<-|[]]]]; reflexivity. }
  split; [exact literalSemantics_laws|].
  split; [exact Hnd|]. split; [exact Hids|]. split; [reflexivity|].
  apply (findAll_then_findOne literalSemantics snapshot
           (with_ratings (Some (3 # 1)) None emptyDto)
           {| data := [summaryOf professorR; summaryOf professorP];
              meta := {| total := 2; meta_page := 1; lastPage := JsInt 1;
                         meta_limit := 20 |} |}
           literalSemantics_laws Hnd Hids).
  reflexivity.
Defined.

(** ** What the service can raise *)

(** ** What the service can raise *)

Lemma mapToProfessorResponse_Err (p : ProfessorWithRelations) (e : Exception) :
  mapToProfessorResponse p = Err e <->
  (p_universities p = None \/ p_faculties p = None) /\ e = TypeError.
Proof.
  unfold mapToProfessorResponse.
  destruct (p_universities p), (p_faculties p); cbn [array_map bind];
    split; try discriminate; try (intros [[H|H] _]; discriminate);
    try (intros H; injection H as <-; auto).
  all: intros [_ ->]; reflexivity.
Qed.

Lemma mapToProfessorDetailResponse_Err
    (p : ProfessorWithRelations) (e : Exception) :
  mapToProfessorDetailResponse p = Err e <->
  (p_universities p = None \/ p_faculties p = None) /\ e = TypeError.
Proof.
  unfold mapToProfessorDetailResponse.
  destruct (p_universities p), (p_faculties p); cbn [array_map bind];
    split; try discriminate; try (intros [[H|H] _]; discriminate);
    try (intros H; injection H as <-; auto).
  all: intros [_ ->]; reflexivity.
Qed.

Lemma map_result_Err (l : list ProfessorWithRelations) (e : Exception) :
  map_result mapToProfessorResponse l = Err e <->
  (exists p, In p l /\ (p_universities p = None \/ p_faculties p = None)) /\
  e = TypeError.
Proof.
  induction l as [|x t IH]; cbn [map_result].
  - split; [discriminate|]. intros [[p [[] _]] _].
  - destruct (mapToProfessorResponse x) as [y|e'] eqn:Hx; cbn [bind].
    + destruct (map_result mapToProfessorResponse t) as [ys|e''] eqn:Ht;
        cbn [bind].
      * split; [discriminate|]. intros [[p [[->|Hin] Hp]] He].
        -- assert (mapToProfessorResponse p = Err e)
             by (apply mapToProfessorResponse_Err; auto).
           congruence.
        -- assert (Hc : Ok ys = Err e :> result (list ProfessorResponseDto))
             by (apply IH; eauto).
           discriminate.
      * rewrite IH. split.
        -- intros [[p [Hin Hp]] He]. split; [|exact He].
           exists p. split; [now right|exact Hp].
        -- intros [[p [[->|Hin] Hp]] He].
           ++ assert (mapToProfessorResponse p = Err e)
                by (apply mapToProfessorResponse_Err; auto).
              congruence.
           ++ split; [eauto|exact He].
    + split.
      * intros H. injection H as <-.
        apply mapToProfessorResponse_Err in Hx. destruct Hx as [Hx ->].
        split; [|reflexivity]. exists x. split; [now left|exact Hx].
      * intros [_ ->]. apply mapToProfessorResponse_Err in Hx.
        destruct Hx as [_ ->]. reflexivity.
Qed.

(** X11.  For every store, [findAll] fails with [e] exactly when the
    count fails with [e], or the count succeeds and the fetch fails with
    [e], or both succeed, some fetched record lacks its universities or
    faculties array and [e] is a TypeError: a store failure passes
    through unchanged and the service adds no error of its own but that
    TypeError. *)
Theorem findAll_errors
    (prisma : PrismaService) (dto : SearchProfessorDto) (e : Exception) :
  findAll prisma dto = Err e <->
  professor_count prisma (findAll_where dto) = Err e \/
  (exists count,
     professor_count prisma (findAll_where dto) = Ok count /\
     professor_findMany prisma (findAll_args dto) = Err e) \/
  (exists count professors p,
     professor_count prisma (findAll_where dto) = Ok count /\
     professor_findMany prisma (findAll_args dto) = Ok professors /\
     In p professors /\
     (p_universities p = None \/ p_faculties p = None) /\
     e = TypeError).
Proof.
  unfold findAll. fold (pageOf dto). fold (limitOf dto). fold (skipOf dto).
  change {| fm_where := findAll_where dto;
            fm_skip := skipOf dto;
            fm_take := limitOf dto;
            fm_include := listInclude;
            fm_orderBy := {| ob_averageRating := desc |} |}
    with (findAll_args dto).
  destruct (professor_count prisma (findAll_where dto)) as [count|e1];
    cbn [bind].
  - destruct (professor_findMany prisma (findAll_args dto)) as [rows|e2];
      cbn [bind].
    + destruct (map_result mapToProfessorResponse rows) as [ds|e3] eqn:Hmap;
        cbn [bind].
      * split; [discriminate|].
        intros [H|[[c [_ H]]|[c [rows' [p [_ [Hr [Hin [Hp He]]]]]]]]];
          try discriminate.
        injection Hr as <-.
        assert (map_result mapToProfessorResponse rows = Err e)
          by (apply map_result_Err; eauto).
        congruence.
      * apply map_result_Err in Hmap. destruct Hmap as [[p [Hin Hp]] ->].
        split.
        -- intros H. injection H as <-. right. right.
           exists count, rows, p. auto.
        -- intros [H|[[c [_ H]]|[c [rows' [p' [_ [_ [_ [_ ->]]]]]]]]];
             try discriminate. reflexivity.
    + split.
      * intros H. right. left. exists count. split; [reflexivity|congruence].
      * intros [H|[[c [_ H]]|[c [rows' [p' [_ [H _]]]]]]];
          try discriminate. congruence.
  - split.
    + intros H. left. congruence.
    + intros [H|[[c [H _]]|[c [rows' [p' [H _]]]]]]; try discriminate.
      congruence.
Qed.

(** X16.  For every store, [findOne] fails with [e] exactly when the
    lookup fails with [e], or the lookup finds nothing and [e] is the
    NotFound exception for the id, or the record found lacks its
    universities or faculties array and [e] is a TypeError. *)
Theorem findOne_errors (prisma : PrismaService) (id : Z) (e : Exception) :
  findOne prisma id = Err e <->
  professor_findUnique prisma
    {| fu_where_id := id; fu_include := detailInclude |} = Err e \/
  (professor_findUnique prisma
     {| fu_where_id := id; fu_include := detailInclude |} = Ok None /\
   e = NotFoundException id) \/
  (exists p,
     professor_findUnique prisma
       {| fu_where_id := id; fu_include := detailInclude |} = Ok (Some p) /\
     (p_universities p = None \/ p_faculties p = None) /\
     e = TypeError).
Proof.
  unfold findOne.
  destruct (professor_findUnique prisma _) as [[p|]|e1]; cbn [bind].
  - rewrite mapToProfessorDetailResponse_Err. split.
    + intros [Hp He]. right. right. now exists p.
    + intros [H|[[H _]|[p' [H [Hp He]]]]]; try discriminate.
      injection H as <-. auto.
  - split.
    + intros H. injection H as <-. right. left. auto.
    + intros [H|[[_ ->]|[p' [H _]]]]; try discriminate. reflexivity.
  - split.
    + intros H. left. congruence.
    + intros [H|[[H _]|[p' [H _]]]]; try discriminate. congruence.
Qed.

(** ** The two mappers *)

(** X12.  The two mappers agree: on every record the detail mapper
    succeeds exactly when the summary mapper does, they fail with the
    same error, and the id, name, rating, review count, universities and
    faculties of the detail DTO are those of the summary DTO. *)
Theorem mappers_agree (p : ProfessorWithRelations) :
  (forall d,
     mapToProfessorDetailResponse p = Ok d ->
     mapToProfessorResponse p = Ok (summaryOfDetail d)) /\
  (forall r,
     mapToProfessorResponse p = Ok r ->
     exists d, mapToProfessorDetailResponse p = Ok d /\ summaryOfDetail d = r) /\
  (forall e,
     mapToProfessorDetailResponse p = Err e <-> mapToProfessorResponse p = Err e).
Proof.
  split; [|split].
  - unfold mapToProfessorDetailResponse, mapToProfessorResponse.
    destruct (p_universities p), (p_faculties p); cbn [array_map bind];
      intros d H; try discriminate.
    injection H as <-. reflexivity.
  - unfold mapToProfessorDetailResponse, mapToProfessorResponse.
    destruct (p_universities p), (p_faculties p); cbn [array_map bind];
      intros r H; try discriminate.
    injection H as <-. eexists. split; reflexivity.
  - intros e.
    now rewrite mapToProfessorDetailResponse_Err, mapToProfessorResponse_Err.
Qed.

(** ** Adding a criterion *)

(** ** Adding a criterion *)

Lemma filter_length_impl {A : Type} (f g : A -> bool) (l : list A) :
  (forall x, f x = true -> g x = true) ->
  (List.length (filter f l) <= List.length (filter g l))%nat.
Proof.
  intros H. induction l as [|x t IH]; simpl; [lia|].
  destruct (f x) eqn:Hf.
  - rewrite (H x Hf). simpl. lia.
  - destruct (g x); simpl; lia.
Qed.

Lemma narrows_of_andb (db : list ProfessorRow) (a b : SearchProfessorDto)
    (extra : ProfessorRow -> bool) :
  (forall row,
     matches_where (findAll_where a) row =
     (matches_where (findAll_where b) row && extra row)%bool) ->
  narrows db a b.
Proof.
  intros H.
  assert (Himp : forall row, matches_where (findAll_where a) row = true ->
                             matches_where (findAll_where b) row = true).
  { intros row Hrow. rewrite H in Hrow. now apply andb_true_iff in Hrow. }
  split.
  - intros row. unfold matched. rewrite !filter_In. intros [Hin Hrow]. auto.
  - apply filter_length_impl. exact Himp.
Qed.

(** X14.  Over a snapshot, a request never selects a professor that the
    same request without its name, without its faculty id, without its
    minimum of reviews or without its rating bounds does not select, and
    its count is never larger. *)
Theorem findAll_criteria_narrow
    (db : list ProfessorRow) (dto : SearchProfessorDto) :
  narrows db dto (with_name None dto) /\
  narrows db dto (with_facultyId None dto) /\
  narrows db dto (with_minReviews None dto) /\
  narrows db dto (with_ratings None None dto).
Proof.
  split; [|split; [|split]]; eapply narrows_of_andb.
  - apply matches_where_name.
  - apply matches_where_facultyId.
  - apply matches_where_minReviews.
  - apply matches_where_ratings.
Qed.

(** ** A page size of zero *)

(** X15.  Called with limit 0 (a value the DTO's [@Min(1)] refuses at
    the HTTP boundary) and integer criteria within range, the search over
    a snapshot still succeeds, for every reading of [contains] and every
    order: the page is empty, the total is the true count, and lastPage is
    not a page number but NaN when nothing matches and Infinity
    otherwise. *)
Theorem findAll_limit_zero
    (sem : StoreSemantics) (db : list ProfessorRow) (dto : SearchProfessorDto)
    (pg : option Z) :
  store_accepts sem (findAll_where dto) = true ->
  findAll (snapshotPrisma sem db) (with_window pg (Some 0) dto) =
  Ok {| data := [];
        meta :=
          {| total := Z.of_nat (List.length (matched_sem sem db dto));
             meta_page := match pg with Some n => n | None => 1 end;
             lastPage :=
               if Z.of_nat (List.length (matched_sem sem db dto)) =? 0
               then JsNaN else JsInfinity;
             meta_limit := 0 |} |}.
Proof.
  intros Hr.
  rewrite findAll_snapshot_cases, findAll_where_window, Hr.
  unfold matched_sem. rewrite findAll_where_window.
  unfold skipOf, js_mul.
  cbn [pageOf limitOf with_window page limit].
  rewrite Z.mul_0_r. change (js_round 0) with 0. change (0 <? 0) with false.
  cbv iota.
  unfold window, Math_ceil_div. cbn [Z.leb Z.compare Z.eqb Z.to_nat firstn map].
  destruct (Z.eqb_spec (Z.of_nat
              (List.length (filter (matches_where_sem sem (findAll_where dto)) db))) 0)
    as [H0|H0]; [reflexivity|].
  destruct (Z.ltb_spec 0 (Z.of_nat
              (List.length (filter (matches_where_sem sem (findAll_where dto)) db))))
    as [_|H]; [reflexivity|lia].
Qed.

Lemma findAll_limit_zero_witness :
  store_accepts literalSemantics (findAll_where emptyDto) = true /\
  findAll (snapshotPrisma literalSemantics snapshot)
    (with_window (Some 3) (Some 0) emptyDto) =
  Ok {| data := [];
        meta :=
          {| total :=
               Z.of_nat
                 (List.length (matched_sem literalSemantics snapshot emptyDto));
             meta_page := 3;
             lastPage :=
               if Z.of_nat
                    (List.length (matched_sem literalSemantics snapshot emptyDto))
                  =? 0
               then JsNaN else JsInfinity;
             meta_limit := 0 |} |}.
Proof.
  split; [reflexivity|].
  apply (findAll_limit_zero literalSemantics snapshot emptyDto (Some 3)).
  reflexivity.
Defined.

(** ** What a successful search returns, for every store *)

(** ** What a successful search returns, for every store *)

Lemma map_result_Ok (l : list ProfessorWithRelations)
    (ds : list ProfessorResponseDto) :
  map_result mapToProfessorResponse l = Ok ds ->
  List.length ds = List.length l /\ map pr_id ds = map p_id l.
Proof.
  revert ds. induction l as [|x t IH]; cbn [map_result]; intros ds H.
  - injection H as <-. split; reflexivity.
  - unfold mapToProfessorResponse in H at 1.
    destruct (p_universities x), (p_faculties x); cbn [array_map bind] in H;
      try discriminate.
    destruct (map_result mapToProfessorResponse t) as [ys|e]; cbn [bind] in H;
      [|discriminate].
    injection H as <-. destruct (IH ys eq_refl) as [Hlen Hids].
    cbn [List.length map pr_id]. now rewrite Hlen, Hids.
Qed.

(** X17.  For every store, when [findAll] returns, the count and the
    fetch both succeeded; [meta.total] is the count as the store gave it,
    [meta.page] and [meta.limit] are the page and the limit of the request
    (1 and 20 when absent), [meta.lastPage] is Math.ceil(count / limit),
    and [data] has one summary per fetched record, in the order of the
    fetch, with the record's id. *)
Theorem findAll_returns
    (prisma : PrismaService) (dto : SearchProfessorDto)
    (resp : PaginatedProfessorsResponseDto) :
  findAll prisma dto = Ok resp ->
  exists count professors,
    professor_count prisma (findAll_where dto) = Ok count /\
    professor_findMany prisma (findAll_args dto) = Ok professors /\
    meta resp =
      {| total := count; meta_page := pageOf dto;
         lastPage := Math_ceil_div count (limitOf dto);
         meta_limit := limitOf dto |} /\
    List.length (data resp) = List.length professors /\
    map pr_id (data resp) = map p_id professors.
Proof.
  unfold findAll. fold (pageOf dto). fold (limitOf dto). fold (skipOf dto).
  change {| fm_where := findAll_where dto;
            fm_skip := skipOf dto;
            fm_take := limitOf dto;
            fm_include := listInclude;
            fm_orderBy := {| ob_averageRating := desc |} |}
    with (findAll_args dto).
  destruct (professor_count prisma (findAll_where dto)) as [count|e1];
    cbn [bind]; [|discriminate].
  destruct (professor_findMany prisma (findAll_args dto)) as [rows|e2];
    cbn [bind]; [|discriminate].
  destruct (map_result mapToProfessorResponse rows) as [ds|e3] eqn:Hmap;
    cbn [bind]; [|discriminate].
  intros H. injection H as <-.
  exists count, rows. apply map_result_Ok in Hmap.
  cbn [data meta]. tauto.
Qed.

Lemma findAll_returns_witness :
  let dto := with_window (Some 1) (Some 2) emptyDto in
  let resp :=
    {| data := [summaryOf professorR; summaryOf professorP];
       meta := {| total := 3; meta_page := 1; lastPage := JsInt 2;
                  meta_limit := 2 |} |} in
  findAll (memoryPrisma snapshot) dto = Ok resp /\
  exists count professors,
    professor_count (memoryPrisma snapshot) (findAll_where dto) = Ok count /\
    professor_findMany (memoryPrisma snapshot) (findAll_args dto) =
      Ok professors /\
    meta resp =
      {| total := count; meta_page := pageOf dto;
         lastPage := Math_ceil_div count (limitOf dto);
         meta_limit := limitOf dto |} /\
    List.length (data resp) = List.length professors /\
    map pr_id (data resp) = map p_id professors.
Proof.
  split; [reflexivity|].
  apply (findAll_returns (memoryPrisma snapshot)
           (with_window (Some 1) (Some 2) emptyDto)).
  reflexivity.
Defined.
